(** * SimpleTodoApp: the task query layer and the authentication flow

    A shallow embedding of the Python sources of the todo service
    (mock and SQLAlchemy-backed), of the user service and of the token
    helpers, followed by the properties the specification states about them.

    Conventions of the embedding:
    - a Python [int] is a [Z]; a [str] is a [string] of ASCII characters,
      compared code point by code point as Python does;
    - a coroutine is the function it computes: [asyncio.sleep] and
      [run_in_executor] change no value and are left out;
    - a raised exception is the [Raise] branch of [Result];
    - [self.todo_dao] of the mock service is the Python list it holds; the
      SQLAlchemy session of the durable service is the table it queries, a
      list of rows in insertion order;
    - the [description] of a task is a string: the [None] that
      [Optional[str]] also admits is outside the model. *)

From Stdlib Require Import List String Ascii ZArith Lia Bool Arith.
From Stdlib Require Import Permutation Sorted.
Import ListNotations.

Local Open Scope Z_scope.
Local Open Scope string_scope.

(* ===================================================================== *)
(** * Python values, exceptions and built-ins                             *)
(* ===================================================================== *)

Module Py.

(** The exceptions that occur in the embedded code. [ValidationError] is the
    one of pydantic, a subclass of [ValueError]: a handler of [ValueError]
    catches both. *)
Inductive Exception : Type :=
| TypeError (msg : string)
| ValueError (msg : string)
| ValidationError (msg : string)
| MultipleResultsFound
| IntegrityError (orig : string)
| JWTError (msg : string)
| ExpiredSignatureError (msg : string)
| HTTPException (status_code : Z) (detail : string).

Inductive Result (A : Type) : Type :=
| Ok (a : A)
| Raise (e : Exception).
Arguments Ok {A} a.
Arguments Raise {A} e.

Definition bind {A B} (r : Result A) (k : A -> Result B) : Result B :=
  match r with
  | Ok a => k a
  | Raise e => Raise e
  end.

(** [[f(x) for x in l]] where [f] may raise: the first exception wins. *)
Fixpoint comprehension {A B} (f : A -> Result B) (l : list A) : Result (list B) :=
  match l with
  | [] => Ok []
  | x :: l' =>
      bind (f x) (fun y => bind (comprehension f l') (fun ys => Ok (y :: ys)))
  end.

(** An index of a slice [l[lo:hi]], brought into [0 .. len(l)]: a negative
    index counts from the end. *)
Definition clamp_index (n i : Z) : Z :=
  if (i <? 0)%Z then Z.max 0 (i + n) else Z.min i n.

(** [l[lo:hi]] *)
Definition slice {A} (l : list A) (lo hi : Z) : list A :=
  let n := Z.of_nat (List.length l) in
  let a := clamp_index n lo in
  let b := clamp_index n hi in
  firstn (Z.to_nat (b - a)) (skipn (Z.to_nat a) l).

(** [sorted(l, key=..., reverse=...)]: Python's sort is stable, also with
    [reverse=True] (elements with equal keys keep their relative order), so
    its result is the one of any stable sort. [leb a b] is
    [key(a) <= key(b)], or [key(b) <= key(a)] when reversed. *)
Section Sorted.
Context {A : Type} (leb : A -> A -> bool).

Fixpoint insert (x : A) (l : list A) : list A :=
  match l with
  | [] => [x]
  | y :: l' => if leb x y then x :: y :: l' else y :: insert x l'
  end.

Fixpoint sorted (l : list A) : list A :=
  match l with
  | [] => []
  | x :: l' => insert x (sorted l')
  end.
End Sorted.

(** [str.upper()] and [str.lower()], exact on ASCII strings: the letters a-z
    and A-Z are mapped, every other character is left as it is. *)
Definition upper_char (c : ascii) : ascii :=
  let n := nat_of_ascii c in
  if ((97 <=? n) && (n <=? 122))%nat then ascii_of_nat (n - 32) else c.

Definition lower_char (c : ascii) : ascii :=
  let n := nat_of_ascii c in
  if ((65 <=? n) && (n <=? 90))%nat then ascii_of_nat (n + 32) else c.

Fixpoint map_string (f : ascii -> ascii) (s : string) : string :=
  match s with
  | EmptyString => EmptyString
  | String c s' => String (f c) (map_string f s')
  end.

Definition upper : string -> string := map_string upper_char.
Definition lower : string -> string := map_string lower_char.

End Py.
Import Py.

Notation "x <- c1 ;; c2" := (Py.bind c1 (fun x => c2))
  (at level 61, c1 at next level, right associativity).

(* ===================================================================== *)
(** * Data model of the todo service                                      *)
(* ===================================================================== *)

(** Modelled from the spec: todo_service/enums/todo_priority.py is not among
    the sources. The spec gives the enum LOW | MEDIUM | HIGH, ordered by its
    ordinal; the member values are the upper-case names, which is what
    [Priority(attr_value.upper())] and the message of the mock service
    look up. *)
Inductive Priority : Type := LOW | MEDIUM | HIGH.

Definition Priority_value (p : Priority) : string :=
  match p with
  | LOW => "LOW"
  | MEDIUM => "MEDIUM"
  | HIGH => "HIGH"
  end.

(** The member name, which is what a SQLAlchemy [Enum] column stores. *)
Definition Priority_name (p : Priority) : string :=
  match p with
  | LOW => "LOW"
  | MEDIUM => "MEDIUM"
  | HIGH => "HIGH"
  end.

Definition Priority_ordinal (p : Priority) : nat :=
  match p with
  | LOW => 0
  | MEDIUM => 1
  | HIGH => 2
  end.

Definition Priority_eqb (p q : Priority) : bool :=
  (Priority_ordinal p =? Priority_ordinal q)%nat.

Definition Priority_leb (p q : Priority) : bool :=
  (Priority_ordinal p <=? Priority_ordinal q)%nat.

(** [Priority(value)]: the member with that value, [ValueError] otherwise. *)
Definition Priority_of_value (v : string) : Result Priority :=
  if v =? "LOW" then Ok LOW
  else if v =? "MEDIUM" then Ok MEDIUM
  else if v =? "HIGH" then Ok HIGH
  else Raise (ValueError (v ++ " is not a valid Priority")).

(** Modelled from the spec: todo_service/enums/attribute_types.py is not among
    the sources; the spec fixes the set ID | TITLE | PRIORITY. *)
Inductive AttributeTypes : Type := ID | TITLE | PRIORITY.

Definition AttributeTypes_value (a : AttributeTypes) : string :=
  match a with
  | ID => "ID"
  | TITLE => "TITLE"
  | PRIORITY => "PRIORITY"
  end.

(** todo_service/dal/pagination.py *)
Inductive OrderBy : Type := by_title | by_description | by_status | by_priority.

Record Pagination : Type := mkPagination {
  page : Z;
  size : Z;
  order_by : OrderBy;
  desc : bool
}.

(** [Field(gt=0)] on [page] and [size]. *)
Definition Pagination_valid (p : Pagination) : Prop := 0 < page p /\ 0 < size p.

(** The defaults of the class: [Pagination()]. *)
Definition Pagination_default : Pagination := mkPagination 1 10 by_title false.

Definition offset (self : Pagination) : Z := (page self - 1) * size self.

Record SearchByPagination : Type := mkSearchByPagination {
  pagination :> Pagination;
  search_type : AttributeTypes;
  search_value : string
}.

(** todo_service/entities/todo_entity.py and mock_todo_entity.py: the two
    entity classes have the same five attributes and the same [from_boundary]
    and [update]; one record stands for both. *)
Record TodoEntity : Type := mkTodoEntity {
  id : string;
  title : string;
  description : string;
  status : string;
  priority : Priority
}.

(** todo_service/boundaries/todo_boundary.py *)
Record TodoBoundary : Type := mkTodoBoundary {
  b_id : string;
  b_title : string;
  b_description : string;
  b_status : string;
  b_priority : Priority
}.

(** Construction of a [TodoBoundary] from the fields a request carries: [id]
    and [title] are required, [title] has [min_length=1], the other fields
    have the defaults of the class. *)
Definition TodoBoundary_new (id_ title_ : string)
    (description_ status_ : option string) (priority_ : option Priority)
  : Result TodoBoundary :=
  if (String.length title_ <? 1)%nat
  then Raise (ValidationError "title: String should have at least 1 character")
  else Ok (mkTodoBoundary id_ title_
             (match description_ with Some d => d | None => EmptyString end)
             (match status_ with Some s => s | None => "Pending" end)
             (match priority_ with Some p => p | None => LOW end)).

(** [TodoBoundary.from_entity]: [model_validate] of the public attributes of
    the entity; the only constraint a well-typed entity can break is
    [min_length=1] of [title]. *)
Definition from_entity (todo_entity : TodoEntity) : Result TodoBoundary :=
  TodoBoundary_new (id todo_entity) (title todo_entity)
    (Some (description todo_entity)) (Some (status todo_entity))
    (Some (priority todo_entity)).

(** One item of the dictionary [todo_boundary.model_dump()]: the key and a
    value of the type that key has in [TodoBoundary]. *)
Inductive Item : Type :=
| item_id (v : string)
| item_title (v : string)
| item_description (v : string)
| item_status (v : string)
| item_priority (v : Priority).

Definition model_dump (b : TodoBoundary) : list Item :=
  [ item_id (b_id b); item_title (b_title b); item_description (b_description b);
    item_status (b_status b); item_priority (b_priority b) ].

Definition is_id_item (i : Item) : bool :=
  match i with item_id _ => true | _ => false end.

(** [data.pop('id', None)] *)
Definition pop_id (data : list Item) : list Item :=
  filter (fun i => negb (is_id_item i)) data.

(** [setattr(self, field, value)] *)
Definition setattr (self : TodoEntity) (i : Item) : TodoEntity :=
  match i with
  | item_id v => mkTodoEntity v (title self) (description self) (status self) (priority self)
  | item_title v => mkTodoEntity (id self) v (description self) (status self) (priority self)
  | item_description v => mkTodoEntity (id self) (title self) v (status self) (priority self)
  | item_status v => mkTodoEntity (id self) (title self) (description self) v (priority self)
  | item_priority v => mkTodoEntity (id self) (title self) (description self) (status self) v
  end.

(** [TodoEntity.update] and [MockTodoEntity.update] *)
Definition update (self : TodoEntity) (data : list Item) : TodoEntity :=
  fold_left setattr (pop_id data) self.

(** [getattr(obj, order_by) <= getattr(obj', order_by)]: strings compare
    lexically, priorities by ordinal. *)
Definition key_leb (order_by_ : OrderBy) (a b : TodoEntity) : bool :=
  match order_by_ with
  | by_title => String.leb (title a) (title b)
  | by_description => String.leb (description a) (description b)
  | by_status => String.leb (status a) (status b)
  | by_priority => Priority_leb (priority a) (priority b)
  end.

(** The comparison a sort with direction [desc_] uses. *)
Definition order_leb (order_by_ : OrderBy) (desc_ : bool) (a b : TodoEntity) : bool :=
  if desc_ then key_leb order_by_ b a else key_leb order_by_ a b.

(* ===================================================================== *)
(** * The service interface and its two variants                          *)
(* ===================================================================== *)

(** todo_service/logic/async_todo_service.py. [get_todo_by_id] is declared
    with [*args]: the list holds the positional arguments a call passes after
    [attr_value]. [update_todo] returns its result and the store after it. *)
Class AsyncTodoService (Store : Type) : Type := {
  get_all_todos : Store -> Pagination -> Result (list TodoBoundary);
  get_todo_by_id : Store -> string -> list Pagination -> Result (option TodoBoundary);
  get_todo_by_title : Store -> string -> Pagination -> Result (list TodoBoundary);
  get_todo_by_priority : Store -> string -> Pagination -> Result (list TodoBoundary);
  update_todo : Store -> string -> TodoBoundary -> Result (option TodoBoundary) * Store
}.

(** The object a search returned is mutated in place: in the list, the first
    element that satisfies [p] becomes [x']. *)
Fixpoint replace_first {A} (p : A -> bool) (x' : A) (l : list A) : list A :=
  match l with
  | [] => []
  | x :: l' => if p x then x' :: l' else x :: replace_first p x' l'
  end.

Definition double_quote : string := String (ascii_of_nat 34) EmptyString.

(** todo_service/logic/mock_todo_service.py *)
Module MockTodoService.

(** [self.todo_dao] *)
Definition t : Type := list TodoEntity.

(** The local [todo_entities] of [get_all_todos]: the slice is taken first,
    [sorted] is applied to the slice. *)
Definition all_todo_entities (self : t) (pagination_query : Pagination) : list TodoEntity :=
  sorted (order_leb (order_by pagination_query) (desc pagination_query))
    (slice self (offset pagination_query)
                (offset pagination_query + size pagination_query)).

Definition get_all_todos (self : t) (pagination_query : Pagination)
  : Result (list TodoBoundary) :=
  comprehension from_entity (all_todo_entities self pagination_query).

(** The signature is [(self, attr_value)], without [*args]: a call that
    passes anything after [attr_value] fails to bind its arguments. *)
Definition get_todo_by_id (self : t) (attr_value : string) (args : list Pagination)
  : Result (option TodoBoundary) :=
  match args with
  | [] =>
      match find (fun todo_entity => id todo_entity =? attr_value) self with
      | Some todo_entity => b <- from_entity todo_entity ;; Ok (Some b)
      | None => Ok None
      end
  | _ :: _ =>
      Raise (TypeError "MockTodoService.get_todo_by_id() takes 2 positional arguments but 3 were given")
  end.

(** The local [todo_entities] of [get_todo_by_title]. *)
Definition title_todo_entities (self : t) (attr_value : string)
    (pagination_query : Pagination) : list TodoEntity :=
  sorted (order_leb (order_by pagination_query) (desc pagination_query))
    (slice (filter (fun entity => title entity =? attr_value) self)
           (offset pagination_query)
           (offset pagination_query + size pagination_query)).

Definition get_todo_by_title (self : t) (attr_value : string)
    (pagination_query : Pagination) : Result (list TodoBoundary) :=
  comprehension from_entity (title_todo_entities self attr_value pagination_query).

(** The local [todo_entities] of [get_todo_by_priority], once the priority
    is parsed. *)
Definition priority_todo_entities (self : t) (priority_ : Priority)
    (pagination_query : Pagination) : list TodoEntity :=
  sorted (order_leb (order_by pagination_query) (desc pagination_query))
    (slice (filter (fun entity => Priority_eqb (priority entity) priority_) self)
           (offset pagination_query)
           (offset pagination_query + size pagination_query)).

Definition invalid_priority_message : string :=
  "Priority can only be " ++ double_quote ++ "low" ++ double_quote ++ ", "
    ++ double_quote ++ "medium" ++ double_quote ++ ", or "
    ++ double_quote ++ "high" ++ double_quote ++ ".".

Definition get_todo_by_priority (self : t) (attr_value : string)
    (pagination_query : Pagination) : Result (list TodoBoundary) :=
  match Priority_of_value (upper attr_value) with
  | Raise (ValueError _) => Raise (ValueError invalid_priority_message)
  | Raise e => Raise e
  | Ok priority_ =>
      comprehension from_entity (priority_todo_entities self priority_ pagination_query)
  end.

Definition update_todo (self : t) (todo_id : string) (todo_boundary : TodoBoundary)
  : Result (option TodoBoundary) * t :=
  match find (fun todo => id todo =? todo_id) self with
  | None => (Ok None, self)
  | Some todo_entity =>
      let todo_entity' := update todo_entity (model_dump todo_boundary) in
      (b <- from_entity todo_entity' ;; Ok (Some b),
       replace_first (fun todo => id todo =? todo_id) todo_entity' self)
  end.

End MockTodoService.

(** The queries the services run on a SQLAlchemy session; a table is the list
    of its rows in insertion order. *)
Module Query.

(** [query(TodoEntity).where(w).order_by(asc|desc(order_by)).offset(o).limit(n).all()]:
    the rows that satisfy [w], ordered by the column, then [o] rows skipped
    and at most [n] rows returned. The engine is taken to compare strings
    code point by code point and to leave rows with equal keys in insertion
    order; [o] and [n] are taken to fit the 64-bit integers of the driver,
    which raises [OverflowError] from 2^63 on. *)
Definition query_all (rows : list TodoEntity) (where_ : TodoEntity -> bool)
    (order_by_ : OrderBy) (desc_ : bool) (offset_ limit_ : Z) : list TodoEntity :=
  firstn (Z.to_nat limit_)
    (skipn (Z.to_nat offset_) (sorted (order_leb order_by_ desc_) (filter where_ rows))).

(** [query(...).where(w).one_or_none()] on the rows that satisfy [w]. *)
Definition one_or_none {A} (matching : list A) : Result (option A) :=
  match matching with
  | [] => Ok None
  | [row] => Ok (Some row)
  | _ :: _ :: _ => Raise MultipleResultsFound
  end.

End Query.

(** todo_service/logic/todo_service.py, over a SQLAlchemy session. *)
Module TodoService.

(** [self._todo_dao]: the rows of the table [todos], in insertion order. *)
Definition t : Type := list TodoEntity.

Definition get_all_todos (self : t) (pagination_query : Pagination)
  : Result (list TodoBoundary) :=
  let result := Query.query_all self (fun _ => true)
                  (order_by pagination_query) (desc pagination_query)
                  (offset pagination_query) (size pagination_query) in
  comprehension from_entity result.

Definition get_todo_by_id (self : t) (attr_value : string) (args : list Pagination)
  : Result (option TodoBoundary) :=
  todo_entity <- Query.one_or_none (filter (fun row => id row =? attr_value) self) ;;
  match todo_entity with
  | Some todo_entity => b <- from_entity todo_entity ;; Ok (Some b)
  | None => Ok None
  end.

Definition get_todo_by_title (self : t) (attr_value : string)
    (pagination_query : Pagination) : Result (list TodoBoundary) :=
  let todo_entities := Query.query_all self (fun row => title row =? attr_value)
                         (order_by pagination_query) (desc pagination_query)
                         (offset pagination_query) (size pagination_query) in
  comprehension from_entity todo_entities.

(** [TodoEntity.priority == attr_value] compares the stored member name with
    the search value as it was received: no [upper()], no parsing. *)
Definition get_todo_by_priority (self : t) (attr_value : string)
    (pagination_query : Pagination) : Result (list TodoBoundary) :=
  let todo_entities := Query.query_all self (fun row => Priority_name (priority row) =? attr_value)
                         (order_by pagination_query) (desc pagination_query)
                         (offset pagination_query) (size pagination_query) in
  comprehension from_entity todo_entities.

(** [add], [commit] and [refresh] write the updated row back. *)
Definition update_todo (self : t) (todo_id : string) (todo_boundary : TodoBoundary)
  : Result (option TodoBoundary) * t :=
  match Query.one_or_none (filter (fun row => id row =? todo_id) self) with
  | Raise e => (Raise e, self)
  | Ok None => (Ok None, self)
  | Ok (Some todo_entity) =>
      let todo_entity' := update todo_entity (model_dump todo_boundary) in
      (b <- from_entity todo_entity' ;; Ok (Some b),
       replace_first (fun row => id row =? todo_id) todo_entity' self)
  end.

End TodoService.

(** The stores of the two variants are both lists of entities; a wrapper per
    variant tells them apart for instance resolution. *)
Record MockStore : Type := mock_store { mock_dao : MockTodoService.t }.
Record SqlStore : Type := sql_store { sql_rows : TodoService.t }.

#[export] Instance MockTodoService_service : AsyncTodoService MockStore := {
  get_all_todos s := MockTodoService.get_all_todos (mock_dao s);
  get_todo_by_id s := MockTodoService.get_todo_by_id (mock_dao s);
  get_todo_by_title s := MockTodoService.get_todo_by_title (mock_dao s);
  get_todo_by_priority s := MockTodoService.get_todo_by_priority (mock_dao s);
  update_todo s todo_id b :=
    let (r, dao) := MockTodoService.update_todo (mock_dao s) todo_id b in (r, mock_store dao)
}.

#[export] Instance TodoService_service : AsyncTodoService SqlStore := {
  get_all_todos s := TodoService.get_all_todos (sql_rows s);
  get_todo_by_id s := TodoService.get_todo_by_id (sql_rows s);
  get_todo_by_title s := TodoService.get_todo_by_title (sql_rows s);
  get_todo_by_priority s := TodoService.get_todo_by_priority (sql_rows s);
  update_todo s todo_id b :=
    let (r, rows) := TodoService.update_todo (sql_rows s) todo_id b in (r, sql_store rows)
}.

(** todo_service/controller/todo_controller.py *)
Module TodoController.

(** What [get_todo_by_attribute] returns: one task or a list of tasks. *)
Inductive ReturnValue : Type :=
| one_todo (b : TodoBoundary)
| todo_list (l : list TodoBoundary).

Definition HTTP_400_BAD_REQUEST : Z := 400.
Definition HTTP_404_NOT_FOUND : Z := 404.

Section Routes.
Context {Store : Type} `{AsyncTodoService Store}.

(** [method_map.get(attr_type)] applied to [(attr_value, pagination_query)];
    every member of [AttributeTypes] has an entry. The result is [None]
    only when the ID lookup found nothing. *)
Definition method (todo_service : Store) (attr_type : AttributeTypes)
    (attr_value : string) (pagination_query : SearchByPagination)
  : Result (option ReturnValue) :=
  match attr_type with
  | ID =>
      r <- get_todo_by_id todo_service attr_value [pagination pagination_query] ;;
      Ok (option_map one_todo r)
  | TITLE =>
      r <- get_todo_by_title todo_service attr_value pagination_query ;;
      Ok (Some (todo_list r))
  | PRIORITY =>
      r <- get_todo_by_priority todo_service attr_value pagination_query ;;
      Ok (Some (todo_list r))
  end.

Definition get_todo_by_attribute (pagination_query : SearchByPagination)
    (todo_service : Store) : Result ReturnValue :=
  let attr_type := search_type pagination_query in
  let attr_value := search_value pagination_query in
  match method todo_service attr_type attr_value pagination_query with
  | Raise (ValueError err) | Raise (ValidationError err) =>
      Raise (HTTPException HTTP_400_BAD_REQUEST
               ("Invalid input for attribute value: " ++ attr_value ++ ". " ++ err))
  | Raise e => Raise e
  | Ok None =>
      Raise (HTTPException HTTP_404_NOT_FOUND
               ("No task found matching " ++ lower (AttributeTypes_value attr_type)
                  ++ "='" ++ attr_value ++ "'."))
  | Ok (Some ret_value) => Ok ret_value
  end.

Definition update_task (todo_id : string) (todo_boundary : TodoBoundary)
    (todo_service : Store) : Result TodoBoundary * Store :=
  match update_todo todo_service todo_id todo_boundary with
  | (Ok (Some updated_todo), s') => (Ok updated_todo, s')
  | (Ok None, s') =>
      (Raise (HTTPException HTTP_404_NOT_FOUND
                ("Task with ID '" ++ todo_id ++ "' not found. "
                   ++ "Please ensure the task exists before attempting an update.")), s')
  | (Raise e, s') => (Raise e, s')
  end.
End Routes.

End TodoController.

(* ===================================================================== *)
(** * Collaborators of the authentication flow                            *)
(* ===================================================================== *)

(** Modelled from the spec: common/utils/crypt_context.py is not among the
    sources. The spec's PasswordHasher has [hash(raw)], a salted digest (the
    salt is the first argument here), and [verify(raw, hashed)]. *)
Record CryptContext : Type := mkCryptContext {
  hash : string -> string -> string;
  verify : string -> string -> bool
}.

(** configuration/config.py *)
Record Config : Type := mkConfig {
  DATABASE_URL : string;
  JWT_ALGORITHM : string;
  JWT_SECRET_KEY : string;
  DEV_ENVIRONMENT : bool;
  ROOT_PREFIX_VERSION : string
}.

(** A [datetime] is its number of microseconds since the epoch. *)
Definition datetime : Type := Z.

(** [timedelta(minutes=m)] *)
Definition timedelta_minutes (m : Z) : Z := m * 60 * 1000000.

(** The values of a claims dictionary. *)
Inductive ClaimValue : Type :=
| claim_str (s : string)
| claim_datetime (d : datetime).

(** A [dict] with string keys, in insertion order. *)
Definition dict (V : Type) : Type := list (string * V).

(** [d.update({k: v})]: the value of an existing key is replaced in place, a
    new key goes to the end. *)
Fixpoint dict_update {V} (k : string) (v : V) (d : dict V) : dict V :=
  match d with
  | [] => [(k, v)]
  | (k', v') :: d' => if k' =? k then (k, v) :: d' else (k', v') :: dict_update k v d'
  end.

Fixpoint dict_get {V} (k : string) (d : dict V) : option V :=
  match d with
  | [] => None
  | (k', v) :: d' => if k' =? k then Some v else dict_get k d'
  end.

(** The JWT functions of the third-party package [jose]: [jwt.encode] and
    [jwt.decode]; the last argument of [decode] is the clock it reads. *)
Record Jose : Type := mkJose {
  jwt_encode : dict ClaimValue -> string -> string -> string;
  jwt_decode : string -> string -> string -> datetime -> Result (dict ClaimValue)
}.

(** common/utils/token_generator.py *)
Module TokenGenerator.
Section WithGlobals.
Context (jwt : Jose) (config : Config).

(** [now] is [datetime.now(timezone.utc)]. *)
Definition create_access_token (data : dict ClaimValue) (expire_min : Z)
    (now : datetime) : string :=
  let claims := data in
  let expire_time := now + timedelta_minutes expire_min in
  let claims := dict_update "exp" (claim_datetime expire_time) claims in
  jwt_encode jwt claims (JWT_SECRET_KEY config) (JWT_ALGORITHM config).

Definition decode_access_token (token : string) (now : datetime)
  : Result (dict ClaimValue) :=
  jwt_decode jwt token (JWT_SECRET_KEY config) (JWT_ALGORITHM config) now.
End WithGlobals.

(** The default of [expire_min]. *)
Definition default_expire_min : Z := 30.
End TokenGenerator.

(** Modelled from the spec: user_service/boundaries/user_login.py is not among
    the sources; [login(username, rawPassword)] takes these two strings. *)
Module UserLogin.
Record t : Type := mk { username : string; password : string }.
End UserLogin.

(** Modelled from the spec: common/models/token.py is not among the sources;
    the controller builds it as [Token(access_token=token)]. *)
Module Token.
Record t : Type := mk { access_token : string }.
End Token.

(** user_service/boundaries/user_boundary.py *)
Module UserBoundary.
Record t : Type := mk {
  id : string;
  username : string;
  email : string;
  first_name : string;
  last_name : string;
  password : string
}.
End UserBoundary.

(** user_service/entities/user_entity.py *)
Module UserEntity.
Record t : Type := mk {
  id : string;
  username : string;
  email : string;
  first_name : string;
  last_name : string;
  hashed_password : string
}.

(** [salt] is the randomness [crypto_ctx.hash] draws. The [id] column is
    filled by its default when the row is flushed, see [UserService]. *)
Definition from_boundary (crypto_ctx : CryptContext) (salt : string)
    (user_boundary : UserBoundary.t) : t :=
  mk EmptyString (UserBoundary.username user_boundary) (UserBoundary.email user_boundary)
     (UserBoundary.first_name user_boundary) (UserBoundary.last_name user_boundary)
     (hash crypto_ctx salt (UserBoundary.password user_boundary)).
End UserEntity.

(** user_service/boundaries/user_response.py *)
Module UserFilteredBoundary.
(** The fields of [UserBoundary], with [password] an [Optional[str]]. *)
Record t : Type := mk {
  id : string;
  username : string;
  email : string;
  first_name : string;
  last_name : string;
  password : option string
}.

Section WithValidator.
(** [EmailStr]: the check of the package [email_validator]. *)
Context (email_ok : string -> bool).

(** [cls(id=..., ..., password=None)]: the constraints inherited from
    [UserBoundary] are checked on the values passed. *)
Definition from_entity (user_entity : UserEntity.t) : Result t :=
  if (String.length (UserEntity.username user_entity) <? 3)%nat
  then Raise (ValidationError "username: String should have at least 3 characters")
  else if negb (email_ok (UserEntity.email user_entity))
  then Raise (ValidationError "email: value is not a valid email address")
  else if (String.length (UserEntity.first_name user_entity) <? 1)%nat
  then Raise (ValidationError "first_name: String should have at least 1 character")
  else if (String.length (UserEntity.last_name user_entity) <? 1)%nat
  then Raise (ValidationError "last_name: String should have at least 1 character")
  else Ok (mk (UserEntity.id user_entity) (UserEntity.username user_entity)
              (UserEntity.email user_entity) (UserEntity.first_name user_entity)
              (UserEntity.last_name user_entity) None).
End WithValidator.

(** [model_dump()], the response body: [password] is declared with
    [exclude=True]. *)
Definition model_dump (v : t) : dict string :=
  [ ("id", id v); ("username", username v); ("email", email v);
    ("first_name", first_name v); ("last_name", last_name v) ].
End UserFilteredBoundary.

(** user_service/logic/user_service.py *)
Module UserService.

(** [self._user_dao]: the rows of the table [users]. *)
Definition t : Type := list UserEntity.t.

(** [commit] of one added row: the primary key and the three [unique]
    columns are checked against the rows present; [orig] names the column
    of the violated constraint. *)
Definition commit_add (rows : t) (row : UserEntity.t) : Result t :=
  if existsb (fun r => UserEntity.id r =? UserEntity.id row) rows
  then Raise (IntegrityError "unique constraint users_pkey (id)")
  else if existsb (fun r => UserEntity.username r =? UserEntity.username row) rows
  then Raise (IntegrityError "unique constraint users_username_key (username)")
  else if existsb (fun r => UserEntity.email r =? UserEntity.email row) rows
  then Raise (IntegrityError "unique constraint users_email_key (email)")
  else if existsb (fun r => UserEntity.hashed_password r =? UserEntity.hashed_password row) rows
  then Raise (IntegrityError "unique constraint users_hashed_password_key (hashed_password)")
  else Ok (rows ++ [row])%list.

Section WithGlobals.
Context (crypto_ctx : CryptContext) (jwt : Jose) (config : Config)
        (email_ok : string -> bool).

Definition login (self : t) (user_login : UserLogin.t) (now : datetime)
  : Result (option string) :=
  user_entity <- Query.one_or_none
                   (filter (fun row => UserEntity.username row
                                         =? UserLogin.username user_login) self) ;;
  match user_entity with
  | None => Ok None
  | Some user_entity =>
      if negb (verify crypto_ctx (UserLogin.password user_login)
                 (UserEntity.hashed_password user_entity))
      then Ok None
      else Ok (Some (TokenGenerator.create_access_token jwt config
                       [("sub", claim_str (UserEntity.username user_entity))]
                       TokenGenerator.default_expire_min now))
  end.

(** [salt] is the randomness of the hasher, [uuid] the value
    [str(uuid.uuid4())] gives the [id] column at the flush. The result is
    paired with the table after the call. *)
Definition register (self : t) (user_boundary : UserBoundary.t)
    (salt uuid : string) : Result UserFilteredBoundary.t * t :=
  let user_entity := UserEntity.from_boundary crypto_ctx salt user_boundary in
  let user_entity :=
    UserEntity.mk uuid (UserEntity.username user_entity) (UserEntity.email user_entity)
      (UserEntity.first_name user_entity) (UserEntity.last_name user_entity)
      (UserEntity.hashed_password user_entity) in
  match commit_add self user_entity with
  | Raise e => (Raise e, self)
  | Ok self' => (UserFilteredBoundary.from_entity email_ok user_entity, self')
  end.
End WithGlobals.

End UserService.

(** user_service/controller/user_controller.py *)
Module UserController.

Definition HTTP_401_UNAUTHORIZED : Z := 401.

(** [fastapi.security.OAuth2PasswordRequestForm] *)
Record OAuth2PasswordRequestForm : Type := mkForm {
  grant_type : option string;
  username : string;
  password : string;
  scopes : list string;
  client_id : option string;
  client_secret : option string
}.

Section WithGlobals.
Context (crypto_ctx : CryptContext) (jwt : Jose) (config : Config).

(** [if not token]: [None] and the empty string are both false. *)
Definition login (user_login : UserLogin.t) (user_service : UserService.t)
    (now : datetime) : Result Token.t :=
  token <- UserService.login crypto_ctx jwt config user_service user_login now ;;
  match token with
  | None => Raise (HTTPException HTTP_401_UNAUTHORIZED "Invalid username or password")
  | Some token =>
      if token =? EmptyString
      then Raise (HTTPException HTTP_401_UNAUTHORIZED "Invalid username or password")
      else Ok (Token.mk token)
  end.

Definition form_login (form : OAuth2PasswordRequestForm)
    (user_service : UserService.t) (now : datetime) : Result Token.t :=
  login (UserLogin.mk (username form) (password form)) user_service now.
End WithGlobals.

End UserController.

(* ===================================================================== *)
(** * The remaining operations of the services and of the routes          *)
(* ===================================================================== *)

(** [MockTodoEntity.__eq__], the comparison pydantic gives a model: two
    entities are equal when all their fields are. *)
Definition TodoEntity_eqb (a b : TodoEntity) : bool :=
  (id a =? id b) && (title a =? title b) && (description a =? description b)
  && (status a =? status b) && Priority_eqb (priority a) (priority b).

(** [l.remove(x)]: the first element equal to [x] goes, [ValueError] when
    there is none. *)
Fixpoint list_remove {A} (eqb : A -> A -> bool) (x : A) (l : list A) : Result (list A) :=
  match l with
  | [] => Raise (ValueError "list.remove(x): x not in list")
  | y :: l' =>
      if eqb y x then Ok l'
      else l'' <- list_remove eqb x l' ;; Ok (y :: l'')
  end.

(** [MockTodoEntity.from_boundary] and [TodoEntity.from_boundary]: [cls()]
    takes its id from the default of the field, [str(uuid.uuid4())], here
    [uuid]; the id of the boundary is not read. *)
Definition TodoEntity_from_boundary (uuid : string) (todo_boundary : TodoBoundary)
  : TodoEntity :=
  mkTodoEntity uuid (b_title todo_boundary) (b_description todo_boundary)
    (b_status todo_boundary) (b_priority todo_boundary).

(** [create_todo] and [delete] of todo_service/logic/mock_todo_service.py;
    each result is paired with the list after the call. *)
Module MockTodoServiceWrites.

Definition create_todo (self : MockTodoService.t) (todo_boundary : TodoBoundary)
    (uuid : string) : Result TodoBoundary * MockTodoService.t :=
  let todo_entity := TodoEntity_from_boundary uuid todo_boundary in
  let self' := (self ++ [todo_entity])%list in
  (from_entity todo_entity, self').

Definition delete (self : MockTodoService.t) (todo_id : string)
  : Result bool * MockTodoService.t :=
  match find (fun todo => id todo =? todo_id) self with
  | None => (Ok false, self)
  | Some todo_entity =>
      match list_remove TodoEntity_eqb todo_entity self with
      | Ok self' => (Ok true, self')
      | Raise e => (Raise e, self)
      end
  end.

End MockTodoServiceWrites.

(** [create_todo] of todo_service/logic/todo_service.py. [commit] inserts the
    row unless its primary key is in the table already. *)
Module TodoServiceWrites.

Definition create_todo (self : TodoService.t) (todo_boundary : TodoBoundary)
    (uuid : string) : Result TodoBoundary * TodoService.t :=
  let todo_entity := TodoEntity_from_boundary uuid todo_boundary in
  if existsb (fun row => id row =? id todo_entity) self
  then (Raise (IntegrityError "unique constraint todos_pkey (id)"), self)
  else (from_entity todo_entity, (self ++ [todo_entity])%list).

End TodoServiceWrites.

(** The routes of todo_service/controller/todo_controller.py that write; the
    method of the service a route calls is its first argument. *)
Module TodoControllerWrites.

Definition create_task {Store : Type}
    (create_todo : Store -> TodoBoundary -> string -> Result TodoBoundary * Store)
    (todo_boundary : TodoBoundary) (todo_service : Store) (uuid : string)
  : Result TodoBoundary * Store :=
  create_todo todo_service todo_boundary uuid.

(** The route returns nothing: status 204. *)
Definition delete_task {Store : Type} (delete : Store -> string -> Result bool * Store)
    (todo_id : string) (todo_service : Store) : Result unit * Store :=
  match delete todo_service todo_id with
  | (Ok true, s') => (Ok tt, s')
  | (Ok false, s') =>
      (Raise (HTTPException TodoController.HTTP_404_NOT_FOUND
                ("Task with ID '" ++ todo_id ++ "' not found. "
                   ++ "Unable to delete a non-existing task.")), s')
  | (Raise e, s') => (Raise e, s')
  end.

End TodoControllerWrites.

(** [sub in s] on strings. *)
Fixpoint contains (sub s : string) : bool :=
  if String.prefix sub s then true
  else match s with
       | EmptyString => false
       | String _ s' => contains sub s'
       end.

(** The route [register] of user_service/controller/user_controller.py. *)
Module UserControllerRegister.

Definition HTTP_400_BAD_REQUEST : Z := 400.

(** The [detail] the handler of [IntegrityError] picks from [str(e.orig)]. *)
Definition integrity_detail (str_ex : string) : string :=
  if contains "unique constraint" str_ex && contains "email" str_ex
  then "The email address is already taken."
  else if contains "unique constraint" str_ex && contains "username" str_ex
  then "The username is already taken."
  else if contains "foreign key constraint" str_ex
  then "The provided foreign key value is invalid."
  else "An integrity error occurred. Please check your data.".

Definition register (crypto_ctx : CryptContext) (email_ok : string -> bool)
    (user_boundary : UserBoundary.t) (user_service : UserService.t)
    (salt uuid : string) : Result UserFilteredBoundary.t * UserService.t :=
  match UserService.register crypto_ctx email_ok user_service user_boundary salt uuid with
  | (Raise (IntegrityError str_ex), s') =>
      (Raise (HTTPException HTTP_400_BAD_REQUEST (integrity_detail str_ex)), s')
  | r => r
  end.

End UserControllerRegister.

(* ===================================================================== *)
(** * Notions used to state the properties                                *)
(* ===================================================================== *)

(** The order a boolean comparison decides. *)
Definition le_of {A} (leb : A -> A -> bool) (a b : A) : Prop := leb a b = true.

(** The boundary [from_entity] yields when the validation passes. *)
Definition to_boundary (e : TodoEntity) : TodoBoundary :=
  mkTodoBoundary (id e) (title e) (description e) (status e) (priority e).

(** Every stored title has at least one character, as [TodoBoundary] requires
    of the titles that reach the store through [create] and [update]. *)
Definition store_ok (l : list TodoEntity) : Prop :=
  Forall (fun e => title e <> EmptyString) l.

(** Page [k] of a listing that is otherwise queried like [p]. *)
Definition nth_page (p : Pagination) (k : nat) : Pagination :=
  mkPagination (Z.of_nat k) (size p) (order_by p) (desc p).

(** Pages 1, 2, ..., n. *)
Definition first_pages (p : Pagination) (n : nat) : list Pagination :=
  map (nth_page p) (seq 1 n).

(** The records of the given pages, one page after the other. *)
Definition concat_pages {B} (get : Pagination -> Result (list B))
    (ps : list Pagination) : Result (list B) :=
  pages <- comprehension get ps ;; Ok (List.concat pages).

(** A pending task. *)
Definition task (id_ title_ description_ : string) (priority_ : Priority) : TodoEntity :=
  mkTodoEntity id_ title_ description_ "Pending" priority_.

(** Two tasks stored in the order b, a. *)
Definition store_b_a : list TodoEntity :=
  [ task "1" "b" EmptyString LOW; task "2" "a" EmptyString LOW ].

(** Two tasks with the same title, stored with descriptions in the order b, a. *)
Definition store_same_title : list TodoEntity :=
  [ task "1" "t" "b" LOW; task "2" "t" "a" LOW ].

(** The first page of a listing read one record per page, ascending. *)
Definition one_per_page (ob : OrderBy) : Pagination := mkPagination 1 1 ob false.

(** The entity after [update] with the dump of a boundary. *)
Definition updated (e : TodoEntity) (b : TodoBoundary) : TodoEntity :=
  mkTodoEntity (id e) (b_title b) (b_description b) (b_status b) (b_priority b).

(** A stored task whose description, status and priority are not the
    defaults. *)
Definition stored_task : TodoEntity := mkTodoEntity "1" "A" "d" "Done" HIGH.

(** A hasher, a JWT codec and a configuration to run the flows on: the digest
    is the salt, a separator, the password and an end mark. *)
Definition example_crypto_ctx : CryptContext :=
  mkCryptContext
    (fun salt raw => salt ++ "$" ++ raw ++ "#")%string
    (fun raw hashed => (hashed =? "s$" ++ raw ++ "#")%string).

(** The token spells out algorithm, subject and key; nothing is decoded. *)
Definition example_jose : Jose :=
  mkJose
    (fun claims key algorithm =>
       match dict_get "sub" claims with
       | Some (claim_str name) => (algorithm ++ "." ++ name ++ "." ++ key)%string
       | _ => algorithm
       end)
    (fun token key algorithm now => Raise (ValueError "not decoded")).

Definition example_config : Config :=
  mkConfig "sqlite://" "HS256" "secret" false "v1".

(** A stored user whose password is "wonderland", hashed with the salt "s". *)
Definition alice : UserEntity.t :=
  UserEntity.mk "u1" "alice" "alice@example.org" "Alice" "A" "s$wonderland#".

(** The row [register] hands to the session. *)
Definition registered_row (crypto_ctx : CryptContext) (b : UserBoundary.t)
    (salt uuid : string) : UserEntity.t :=
  UserEntity.mk uuid (UserBoundary.username b) (UserBoundary.email b)
    (UserBoundary.first_name b) (UserBoundary.last_name b)
    (hash crypto_ctx salt (UserBoundary.password b)).

(** An address check that asks for an at sign. *)
Definition example_email_ok (s : string) : bool :=
  existsb (Ascii.eqb "@"%char) (list_ascii_of_string s).

(** A registration request. *)
Definition bob : UserBoundary.t :=
  UserBoundary.mk EmptyString "bob" "bob@example.org" "Bob" "B" "builder".

(** [title: str = Field(min_length=1)]: what FastAPI has checked of a
    [TodoBoundary] it hands to a route. *)
Definition boundary_ok (b : TodoBoundary) : Prop := b_title b <> EmptyString.

(** What [UserBoundary] checks of every request: [min_length] of the username
    and of the two names. The email is checked only when the request carries
    one; the default, the empty string, is not. *)
Definition UserBoundary_checked (b : UserBoundary.t) : Prop :=
  (3 <= String.length (UserBoundary.username b))%nat
  /\ (1 <= String.length (UserBoundary.first_name b))%nat
  /\ (1 <= String.length (UserBoundary.last_name b))%nat.

(** Whether [UserFilteredBoundary] accepts the values of a boundary. *)
Definition view_accepts (email_ok : string -> bool) (b : UserBoundary.t) : bool :=
  negb (String.length (UserBoundary.username b) <? 3)%nat
  && email_ok (UserBoundary.email b)
  && negb (String.length (UserBoundary.first_name b) <? 1)%nat
  && negb (String.length (UserBoundary.last_name b) <? 1)%nat.

(** The lengths the columns of [users] declare: [String(128)] for the id,
    [String(30)] for the username, [String(64)] for the names and the
    digest. *)
Definition fits_columns (row : UserEntity.t) : Prop :=
  (String.length (UserEntity.id row) <= 128)%nat
  /\ (String.length (UserEntity.username row) <= 30)%nat
  /\ (String.length (UserEntity.first_name row) <= 64)%nat
  /\ (String.length (UserEntity.last_name row) <= 64)%nat
  /\ (String.length (UserEntity.hashed_password row) <= 64)%nat.

(** A value of the row is in the table already, in a column that is the
    primary key or unique. *)
Definition taken (rows : UserService.t) (row : UserEntity.t) : Prop :=
  In (UserEntity.id row) (map UserEntity.id rows)
  \/ In (UserEntity.username row) (map UserEntity.username rows)
  \/ In (UserEntity.email row) (map UserEntity.email rows)
  \/ In (UserEntity.hashed_password row) (map UserEntity.hashed_password rows).

(** The unique constraints of the table [users]: the primary key and the
    three [unique=True] columns. *)
Definition users_unique (rows : UserService.t) : Prop :=
  NoDup (map UserEntity.id rows) /\ NoDup (map UserEntity.username rows)
  /\ NoDup (map UserEntity.email rows) /\ NoDup (map UserEntity.hashed_password rows).

(* ===================================================================== *)
(** * Facts about the built-ins                                           *)
(* ===================================================================== *)

Local Open Scope list_scope.

Section ListFacts.
Context {A : Type}.
Implicit Types (l : list A) (p : A -> bool).

Lemma firstn_then_next (a b : nat) l :
  firstn a l ++ firstn b (skipn a l) = firstn (a + b) l.
Proof.
  revert l; induction a as [|a IH]; intros l; simpl.
  - reflexivity.
  - destruct l as [|x l]; simpl.
    + now rewrite firstn_nil.
    + now rewrite IH.
Qed.

(** Consecutive windows of width [s] add up to a prefix. *)
Lemma concat_windows (s n : nat) l :
  List.concat (map (fun k => firstn s (skipn (k * s) l)) (seq 0 n)) = firstn (n * s) l.
Proof.
  induction n as [|n IH].
  - reflexivity.
  - rewrite seq_S, map_app, concat_app, IH. simpl.
    rewrite app_nil_r, firstn_then_next. f_equal. lia.
Qed.

Lemma slice_nonneg l (lo hi : Z) :
  (0 <= lo <= hi)%Z ->
  slice l lo hi = firstn (Z.to_nat (hi - lo)) (skipn (Z.to_nat lo) l).
Proof.
  intros Hb. unfold slice, clamp_index.
  destruct (Z.ltb_spec lo 0) as [Hlo|Hlo]; [lia|].
  destruct (Z.ltb_spec hi 0) as [Hhi|Hhi]; [lia|].
  set (n := Z.of_nat (List.length l)).
  destruct (Z.le_gt_cases n lo) as [Hn|Hn].
  - rewrite (skipn_all2 l) by (subst n; lia).
    rewrite (skipn_all2 l) by (subst n; lia).
    now rewrite !firstn_nil.
  - rewrite (Z.min_l lo n) by lia.
    destruct (Z.le_gt_cases hi n) as [Hh|Hh].
    + now rewrite (Z.min_l hi n) by lia.
    + rewrite (Z.min_r hi n) by lia.
      rewrite !firstn_all2; try reflexivity;
        rewrite length_skipn; subst n; lia.
Qed.

Lemma slice_nil (lo hi : Z) : slice (@nil A) lo hi = [].
Proof. unfold slice. now rewrite skipn_nil, firstn_nil. Qed.

Lemma slice_length_le l (lo hi : Z) :
  (0 <= lo <= hi)%Z -> (List.length (slice l lo hi) <= Z.to_nat (hi - lo))%nat.
Proof.
  intros Hb. rewrite slice_nonneg by assumption. apply firstn_le_length.
Qed.

Lemma replace_first_none p x' l :
  find p l = None -> replace_first p x' l = l.
Proof.
  induction l as [|x l IH]; simpl; [reflexivity|].
  destruct (p x); [discriminate|]. intros H. now rewrite IH.
Qed.

Lemma replace_first_length p x' l :
  List.length (replace_first p x' l) = List.length l.
Proof.
  induction l as [|x l IH]; simpl; [reflexivity|].
  destruct (p x); simpl; congruence.
Qed.

(** The replacement splits the list at the object [find] returns. *)
Lemma replace_first_split p x' l x :
  find p l = Some x ->
  exists l1 l2,
    l = l1 ++ x :: l2 /\ replace_first p x' l = l1 ++ x' :: l2 /\
    forallb (fun y => negb (p y)) l1 = true.
Proof.
  induction l as [|y l IH]; simpl; [discriminate|].
  destruct (p y) eqn:Hp.
  - intros [= ->]. now exists [], l.
  - intros H. destruct (IH H) as (l1 & l2 & -> & -> & Hl1).
    exists (y :: l1), l2. simpl. now rewrite Hp, Hl1.
Qed.

Lemma one_or_none_find p l x :
  Query.one_or_none (filter p l) = Ok (Some x) -> find p l = Some x.
Proof.
  induction l as [|y l IH]; simpl; [discriminate|].
  destruct (p y) eqn:Hp.
  - destruct (filter p l) as [|z [|z' l']] eqn:Hf; simpl; try discriminate.
    now intros [= ->].
  - exact IH.
Qed.

Lemma one_or_none_absent p l :
  Query.one_or_none (filter p l) = Ok None -> find p l = None.
Proof.
  induction l as [|y l IH]; simpl; [reflexivity|].
  destruct (p y) eqn:Hp.
  - destruct (filter p l) as [|z [|z' l']]; simpl; discriminate.
  - exact IH.
Qed.

Lemma find_none_filter p l : find p l = None -> filter p l = [].
Proof.
  induction l as [|y l IH]; simpl; [reflexivity|].
  destruct (p y); [discriminate|exact IH].
Qed.
End ListFacts.


Section SortedFacts.
Context {A : Type} (leb : A -> A -> bool).

Lemma insert_Permutation x l : Permutation (insert leb x l) (x :: l).
Proof.
  induction l as [|y l IH]; simpl.
  - reflexivity.
  - destruct (leb x y); [reflexivity|].
    rewrite IH. apply perm_swap.
Qed.

Lemma sorted_Permutation l : Permutation (sorted leb l) l.
Proof.
  induction l as [|x l IH]; simpl.
  - reflexivity.
  - rewrite insert_Permutation. now apply perm_skip.
Qed.

Lemma sorted_length l : List.length (sorted leb l) = List.length l.
Proof. apply Permutation_length, sorted_Permutation. Qed.

(** A list that is in order already is returned as it is: [sorted] moves no
    element past one it does not have to. *)
Lemma sorted_of_Sorted l : Sorted (le_of leb) l -> sorted leb l = l.
Proof.
  induction 1 as [|x l Hs IH Hhd]; simpl; [reflexivity|].
  rewrite IH. destruct Hhd as [|y l Hxy]; simpl; [reflexivity|].
  now rewrite Hxy.
Qed.

Section Total.
Hypothesis leb_total : forall a b, leb a b = true \/ leb b a = true.

Lemma insert_Sorted x l : Sorted (le_of leb) l -> Sorted (le_of leb) (insert leb x l).
Proof.
  induction 1 as [|y l Hs IH Hhd]; simpl.
  - repeat constructor.
  - destruct (leb x y) eqn:Hxy.
    + repeat constructor; assumption.
    + constructor; [exact IH|].
      destruct (leb_total x y) as [Hc|Hc]; [congruence|].
      destruct Hhd as [|z l Hyz]; simpl.
      * now constructor.
      * destruct (leb x z); now constructor.
Qed.

Lemma sorted_Sorted l : Sorted (le_of leb) (sorted leb l).
Proof.
  induction l as [|x l IH]; simpl; [constructor|].
  now apply insert_Sorted.
Qed.

Lemma sorted_idempotent l : sorted leb (sorted leb l) = sorted leb l.
Proof. apply sorted_of_Sorted, sorted_Sorted. Qed.
End Total.
End SortedFacts.

Lemma Priority_leb_total p q : Priority_leb p q = true \/ Priority_leb q p = true.
Proof. destruct p, q; simpl; auto. Qed.

Lemma key_leb_total ob a b : key_leb ob a b = true \/ key_leb ob b a = true.
Proof.
  destruct ob; simpl; auto using String.leb_total, Priority_leb_total.
Qed.

Lemma order_leb_total ob d a b : order_leb ob d a b = true \/ order_leb ob d b a = true.
Proof. destruct d; simpl; apply key_leb_total. Qed.

(* ===================================================================== *)
(** * Pages of the listing                                                *)
(* ===================================================================== *)


Lemma from_entity_ok e : title e <> EmptyString -> from_entity e = Ok (to_boundary e).
Proof.
  intros H. unfold from_entity, TodoBoundary_new, to_boundary.
  destruct (title e); [congruence|reflexivity].
Qed.

Lemma comprehension_ok {A B} (f : A -> Result B) (g : A -> B) l :
  Forall (fun x => f x = Ok (g x)) l -> comprehension f l = Ok (map g l).
Proof.
  induction 1 as [|x l Hx _ IH]; simpl; [reflexivity|].
  now rewrite Hx, IH.
Qed.

Lemma comprehension_map {A B C} (f : B -> Result C) (h : A -> B) l :
  comprehension f (map h l) = comprehension (fun x => f (h x)) l.
Proof. induction l as [|x l IH]; simpl; [reflexivity|]. now rewrite IH. Qed.

Lemma comprehension_length {A B} (f : A -> Result B) l r :
  comprehension f l = Ok r -> List.length r = List.length l.
Proof.
  revert r; induction l as [|x l IH]; simpl; intros r.
  - now intros [= <-].
  - destruct (f x); simpl; [|discriminate].
    destruct (comprehension f l); simpl; [|discriminate].
    intros [= <-]. simpl. f_equal. now apply IH.
Qed.

Lemma comprehension_from_entity l :
  store_ok l -> comprehension from_entity l = Ok (map to_boundary l).
Proof.
  intros H. apply comprehension_ok.
  eapply Forall_impl; [|exact H]. intros e. apply from_entity_ok.
Qed.

Lemma store_ok_Permutation l l' : Permutation l l' -> store_ok l -> store_ok l'.
Proof. intros Hp. unfold store_ok. now rewrite Hp. Qed.

Lemma store_ok_sorted leb l : store_ok l -> store_ok (sorted leb l).
Proof. apply store_ok_Permutation. symmetry. apply sorted_Permutation. Qed.

Lemma store_ok_firstn n l : store_ok l -> store_ok (firstn n l).
Proof.
  unfold store_ok. rewrite <- (firstn_skipn n l) at 1.
  rewrite Forall_app. tauto.
Qed.

Lemma store_ok_skipn n l : store_ok l -> store_ok (skipn n l).
Proof.
  unfold store_ok. rewrite <- (firstn_skipn n l) at 1.
  rewrite Forall_app. tauto.
Qed.

Lemma store_ok_filter p l : store_ok l -> store_ok (filter p l).
Proof.
  unfold store_ok. rewrite !Forall_forall. intros H e He.
  apply filter_In in He. now apply H.
Qed.

Lemma filter_everything {A} (l : list A) : filter (fun _ => true) l = l.
Proof. induction l; simpl; congruence. Qed.

Lemma offset_nth_page p k :
  (0 <= size p)%Z ->
  Z.to_nat (offset (nth_page p (S k))) = (k * Z.to_nat (size p))%nat.
Proof. intros Hs. unfold offset, nth_page. simpl page. simpl size. nia. Qed.

Lemma nth_page_window {A} (l : list A) p k :
  (0 < size p)%Z ->
  slice l (offset (nth_page p (S k))) (offset (nth_page p (S k)) + size (nth_page p (S k)))
  = firstn (Z.to_nat (size p)) (skipn (k * Z.to_nat (size p)) l).
Proof.
  intros Hs.
  assert (Ho : (0 <= offset (nth_page p (S k)))%Z)
    by (unfold offset, nth_page; simpl page; simpl size; nia).
  rewrite slice_nonneg by (simpl size; lia).
  rewrite offset_nth_page by lia. simpl size. do 2 f_equal. lia.
Qed.

Module MockTodoServiceFacts.
Import MockTodoService.

(** A page of the mock listing never has more than [size] records. *)
Lemma mock_get_all_todos_length self p r :
  Pagination_valid p ->
  get_all_todos self p = Ok r ->
  (List.length r <= Z.to_nat (size p))%nat.
Proof.
  intros [Hp Hs] H. apply comprehension_length in H. rewrite H.
  unfold all_todo_entities. rewrite sorted_length.
  assert (Ho : (0 <= offset p)%Z) by (unfold offset; nia).
  etransitivity; [apply slice_length_le; lia|]. lia.
Qed.

(** Page [k + 1] is the [k]-th window of the store, sorted on its own. *)
Lemma all_todo_entities_window self p k :
  (0 < size p)%Z ->
  all_todo_entities self (nth_page p (S k))
  = sorted (order_leb (order_by p) (desc p))
      (firstn (Z.to_nat (size p)) (skipn (k * Z.to_nat (size p)) self)).
Proof.
  intros Hs. unfold all_todo_entities. now rewrite nth_page_window.
Qed.

Lemma windows_Permutation self p n :
  (0 < size p)%Z ->
  Permutation
    (List.concat (map (fun k => all_todo_entities self (nth_page p (S k))) (seq 0 n)))
    (firstn (n * Z.to_nat (size p)) self).
Proof.
  intros Hs. rewrite <- concat_windows.
  induction (seq 0 n) as [|k ks IH]; simpl; [reflexivity|].
  apply Permutation_app; [|exact IH].
  rewrite all_todo_entities_window by assumption. apply sorted_Permutation.
Qed.

(** The pages of the mock listing hold every stored task exactly once: their
    concatenation is a permutation of the store. *)
Lemma get_all_todos_pages_Permutation self p n :
  store_ok self -> (0 < size p)%Z ->
  (List.length self <= n * Z.to_nat (size p))%nat ->
  exists r, concat_pages (get_all_todos self) (first_pages p n) = Ok r /\
            Permutation r (map to_boundary self).
Proof.
  intros Hok Hs Hn.
  exists (map to_boundary
            (List.concat (map (fun k => all_todo_entities self (nth_page p (S k)))
                            (seq 0 n)))).
  split.
  - unfold concat_pages, first_pages.
    rewrite <- seq_shift, map_map, comprehension_map.
    rewrite (comprehension_ok _
               (fun k => map to_boundary (all_todo_entities self (nth_page p (S k))))).
    + simpl. now rewrite concat_map, map_map.
    + apply Forall_forall. intros k _. unfold get_all_todos.
      apply comprehension_from_entity.
      rewrite all_todo_entities_window by assumption.
      now apply store_ok_sorted, store_ok_firstn, store_ok_skipn.
  - apply Permutation_map. rewrite windows_Permutation by assumption.
    now rewrite firstn_all2.
Qed.
End MockTodoServiceFacts.

Module TodoServiceFacts.
Import TodoService.

Lemma query_all_length rows w ob d o n :
  (List.length (Query.query_all rows w ob d o n) <= Z.to_nat n)%nat.
Proof. unfold Query.query_all. apply firstn_le_length. Qed.

(** A page of the durable listing never has more than [size] records. *)
Lemma durable_get_all_todos_length self p r :
  get_all_todos self p = Ok r -> (List.length r <= Z.to_nat (size p))%nat.
Proof.
  intros H. apply comprehension_length in H. rewrite H. apply query_all_length.
Qed.

Lemma query_all_window rows w p k :
  (0 < size p)%Z ->
  Query.query_all rows w (order_by p) (desc p)
    (offset (nth_page p (S k))) (size (nth_page p (S k)))
  = firstn (Z.to_nat (size p))
      (skipn (k * Z.to_nat (size p))
         (sorted (order_leb (order_by p) (desc p)) (filter w rows))).
Proof.
  intros Hs. unfold Query.query_all. rewrite offset_nth_page by lia. reflexivity.
Qed.

(** The pages of a durable query, one after the other, are the matching
    rows in the order of the sort: nothing is repeated and nothing is
    missing. *)
Lemma query_pages rows w p n :
  (0 < size p)%Z ->
  (List.length rows <= n * Z.to_nat (size p))%nat ->
  List.concat
    (map (fun k => Query.query_all rows w (order_by p) (desc p)
                     (offset (nth_page p (S k))) (size (nth_page p (S k))))
       (seq 0 n))
  = sorted (order_leb (order_by p) (desc p)) (filter w rows).
Proof.
  intros Hs Hn.
  rewrite (map_ext_in _
             (fun k => firstn (Z.to_nat (size p))
                         (skipn (k * Z.to_nat (size p))
                            (sorted (order_leb (order_by p) (desc p)) (filter w rows))))).
  - rewrite concat_windows. apply firstn_all2.
    rewrite sorted_length. etransitivity; [apply filter_length_le|exact Hn].
  - intros k _. now apply query_all_window.
Qed.

(** The page partition property of the durable listing. *)
Lemma get_all_todos_pages self p n :
  store_ok self -> (0 < size p)%Z ->
  (List.length self <= n * Z.to_nat (size p))%nat ->
  concat_pages (get_all_todos self) (first_pages p n)
  = Ok (map to_boundary (sorted (order_leb (order_by p) (desc p)) self)).
Proof.
  intros Hok Hs Hn.
  unfold concat_pages, first_pages.
  rewrite <- seq_shift, map_map, comprehension_map.
  rewrite (comprehension_ok _
             (fun k => map to_boundary
                         (Query.query_all self (fun _ => true) (order_by p) (desc p)
                            (offset (nth_page p (S k))) (size (nth_page p (S k)))))).
  - simpl. rewrite <- map_map, <- concat_map.
    rewrite query_pages by assumption. now rewrite filter_everything.
  - apply Forall_forall. intros k _. unfold get_all_todos.
    apply comprehension_from_entity. unfold Query.query_all.
    apply store_ok_firstn, store_ok_skipn, store_ok_sorted, store_ok_filter, Hok.
Qed.

(** What the durable pages add up to is in order and holds each row once. *)
Lemma sorted_rows_spec self p :
  Sorted (le_of (order_leb (order_by p) (desc p)))
    (sorted (order_leb (order_by p) (desc p)) self)
  /\ Permutation (sorted (order_leb (order_by p) (desc p)) self) self.
Proof.
  split; [apply sorted_Sorted, order_leb_total|apply sorted_Permutation].
Qed.
End TodoServiceFacts.

(* ===================================================================== *)
(** * Listing and searching: the two variants compared                    *)
(* ===================================================================== *)


(** C1, at a store of two tasks read one task per page and ordered by title:
    the durable listing yields the sorted collection, a then b; the mock
    listing sorts each page after slicing the store, so its pages add up to
    the store order b, a, which is not the sorted collection. *)
Theorem get_all_todos_mock_pages_follow_store_order :
  concat_pages (MockTodoService.get_all_todos store_b_a) (first_pages (one_per_page by_title) 2)
  = Ok (map to_boundary store_b_a)
  /\ concat_pages (TodoService.get_all_todos store_b_a) (first_pages (one_per_page by_title) 2)
     = Ok (map to_boundary (sorted (order_leb by_title false) store_b_a))
  /\ sorted (order_leb by_title false) store_b_a = [ task "2" "a" EmptyString LOW; task "1" "b" EmptyString LOW ]
  /\ map to_boundary store_b_a
     <> map to_boundary (sorted (order_leb by_title false) store_b_a).
Proof.
  repeat split; try reflexivity.
  vm_compute. discriminate.
Qed.

Module SearchFacts.

(** When the matching tasks fit on the first page, slicing before or after
    the sort makes no difference and the two variants agree. *)
Lemma get_todo_by_title_first_page self v p :
  page p = 1%Z ->
  (List.length (filter (fun e => (title e =? v)%string) self) <= Z.to_nat (size p))%nat ->
  MockTodoService.get_todo_by_title self v p = TodoService.get_todo_by_title self v p.
Proof.
  intros Hp Hlen.
  unfold MockTodoService.get_todo_by_title, TodoService.get_todo_by_title.
  f_equal.
  unfold MockTodoService.title_todo_entities, Query.query_all, offset.
  rewrite Hp. simpl.
  destruct (Z.le_gt_cases (size p) 0) as [Hs|Hs].
  - assert (Hnil : filter (fun e => title e =? v) self = []).
    { destruct (filter _ self); [reflexivity|]. simpl in Hlen. lia. }
    rewrite Hnil, slice_nil. simpl. now rewrite firstn_nil.
  - rewrite slice_nonneg by lia. simpl.
    rewrite Z.sub_0_r, !firstn_all2; try reflexivity.
    + now rewrite sorted_length.
    + exact Hlen.
Qed.

(** The mock variant parses the search value whatever its case. *)
Lemma mock_priority_case_insensitive self v v' p :
  upper v = upper v' ->
  MockTodoService.get_todo_by_priority self v p
  = MockTodoService.get_todo_by_priority self v' p.
Proof. intros H. unfold MockTodoService.get_todo_by_priority. now rewrite H. Qed.

Lemma mock_priority_high self p :
  MockTodoService.get_todo_by_priority self "high" p
  = MockTodoService.get_todo_by_priority self "HIGH" p.
Proof. now apply mock_priority_case_insensitive. Qed.

(** In the mock variant a value that is no priority is a [ValueError], which
    the controller turns into a 400. *)
Lemma mock_priority_urgent self p :
  MockTodoService.get_todo_by_priority self "urgent" p
  = Raise (ValueError MockTodoService.invalid_priority_message)
  /\ TodoController.get_todo_by_attribute
       (mkSearchByPagination p PRIORITY "urgent") (mock_store self)
     = Raise (HTTPException 400
                ("Invalid input for attribute value: urgent. "
                   ++ MockTodoService.invalid_priority_message)%string).
Proof. split; reflexivity. Qed.

(** In the mock variant a priority no task has gives the empty list. *)
Lemma mock_priority_no_match self pr p :
  Forall (fun e => priority e <> pr) self ->
  MockTodoService.get_todo_by_priority self (lower (Priority_value pr)) p = Ok []
  /\ MockTodoService.get_todo_by_priority self (Priority_value pr) p = Ok [].
Proof.
  intros H.
  assert (Hf : filter (fun entity => Priority_eqb (priority entity) pr) self = []).
  { induction H as [|e l He _ IH]; simpl; [reflexivity|].
    rewrite IH. destruct (priority e), pr; simpl; congruence. }
  unfold MockTodoService.get_todo_by_priority, MockTodoService.priority_todo_entities.
  split; destruct pr; simpl; rewrite Hf, slice_nil; reflexivity.
Qed.

(** The durable lookup by id does not look at the arguments after the id. *)
Lemma durable_id_ignores_args self v args args' :
  TodoService.get_todo_by_id self v args = TodoService.get_todo_by_id self v args'.
Proof. reflexivity. Qed.

Lemma filter_unique_id rows v :
  NoDup (map id rows) ->
  filter (fun row => id row =? v) rows
  = match find (fun row => id row =? v) rows with Some e => [e] | None => [] end.
Proof.
  induction rows as [|r rows IH]; simpl; [reflexivity|].
  intros Hnd. inversion Hnd as [|? ? Hnotin Hnd']; subst.
  destruct (String.eqb_spec (id r) v) as [Heq|Hne].
  - f_equal. rewrite IH by assumption.
    destruct (find _ rows) as [e|] eqn:Hf; [|reflexivity].
    apply find_some in Hf. destruct Hf as [Hin He].
    apply String.eqb_eq in He. exfalso. apply Hnotin.
    rewrite Heq, <- He. now apply in_map.
  - now apply IH.
Qed.

(** With [id] a primary key, the durable lookup returns the task of that id
    when there is one and [None] otherwise, whatever pagination comes with
    the request. *)
Lemma durable_id_lookup self v p :
  NoDup (map id self) ->
  get_todo_by_id (sql_store self) v [p]
  = match find (fun row => id row =? v) self with
    | Some e => b <- from_entity e ;; Ok (Some b)
    | None => Ok None
    end.
Proof.
  intros Hnd. simpl. unfold TodoService.get_todo_by_id.
  rewrite filter_unique_id by assumption.
  destruct (find _ self); reflexivity.
Qed.

(** Called with the id alone, the mock lookup does the same. *)
Lemma mock_id_lookup_no_args self v :
  MockTodoService.get_todo_by_id self v []
  = match find (fun e => id e =? v) self with
    | Some e => b <- from_entity e ;; Ok (Some b)
    | None => Ok None
    end.
Proof. reflexivity. Qed.

End SearchFacts.

(** C2, at two tasks of the same title read one per page and ordered by
    description: the durable search sorts the matches and then takes the page,
    the mock search takes the page and then sorts it, and the first pages
    differ. The searches by priority differ already on one HIGH task looked up
    as "high", which only the mock variant parses. *)
Theorem get_todo_by_title_variants_differ :
  MockTodoService.get_todo_by_title store_same_title "t" (one_per_page by_description)
  = Ok [ to_boundary (task "1" "t" "b" LOW) ]
  /\ TodoService.get_todo_by_title store_same_title "t" (one_per_page by_description)
     = Ok [ to_boundary (task "2" "t" "a" LOW) ]
  /\ MockTodoService.get_todo_by_title store_same_title "t" (one_per_page by_description)
     <> TodoService.get_todo_by_title store_same_title "t" (one_per_page by_description)
  /\ MockTodoService.get_todo_by_priority [ task "1" "b" EmptyString HIGH ] "high" Pagination_default
     = Ok [ to_boundary (task "1" "b" EmptyString HIGH) ]
  /\ TodoService.get_todo_by_priority [ task "1" "b" EmptyString HIGH ] "high" Pagination_default
     = Ok [].
Proof.
  repeat split; try reflexivity.
  vm_compute. discriminate.
Qed.

(** C3, through the search route: the mock variant declares [get_todo_by_id]
    without [*args], so the call the controller makes with the pagination
    after the id raises [TypeError] for every store, id and pagination; the
    durable variant returns the stored task. *)
Theorem search_by_id_mock_rejects_pagination :
  (forall dao v p,
     TodoController.get_todo_by_attribute (mkSearchByPagination p ID v) (mock_store dao)
     = Raise (TypeError "MockTodoService.get_todo_by_id() takes 2 positional arguments but 3 were given"))
  /\ TodoController.get_todo_by_attribute
       (mkSearchByPagination Pagination_default ID "1") (sql_store store_b_a)
     = Ok (TodoController.one_todo (to_boundary (task "1" "b" EmptyString LOW))).
Proof. split; reflexivity. Qed.

(** C4, in the durable variant: the search value is compared with the stored
    priority as it was received, so "urgent" gives the empty list on every
    store and raises nothing, and on a store with one HIGH task "HIGH" finds
    it while "high" finds nothing. *)
Theorem get_todo_by_priority_durable_not_parsed :
  (forall rows p, TodoService.get_todo_by_priority rows "urgent" p = Ok [])
  /\ (forall p, TodoController.get_todo_by_attribute
                  (mkSearchByPagination p PRIORITY "urgent") (sql_store store_b_a)
                = Ok (TodoController.todo_list []))
  /\ TodoService.get_todo_by_priority [ task "1" "b" EmptyString HIGH ] "HIGH" Pagination_default
     = Ok [ to_boundary (task "1" "b" EmptyString HIGH) ]
  /\ TodoService.get_todo_by_priority [ task "1" "b" EmptyString HIGH ] "high" Pagination_default
     = Ok [].
Proof.
  assert (Hu : forall rows p, TodoService.get_todo_by_priority rows "urgent" p = Ok []).
  { intros rows p. unfold TodoService.get_todo_by_priority, Query.query_all.
    assert (Hf : filter (fun row => Priority_name (priority row) =? "urgent") rows = []).
    { induction rows as [|r rows IH]; simpl; [reflexivity|].
      rewrite IH. now destruct (priority r). }
    rewrite Hf. simpl. now rewrite skipn_nil, firstn_nil. }
  repeat split; try reflexivity; try exact Hu.
  intros p. unfold TodoController.get_todo_by_attribute, TodoController.method.
  simpl. now rewrite Hu.
Qed.

(* ===================================================================== *)
(** * Updating a task                                                     *)
(* ===================================================================== *)

Module UpdateFacts.

Lemma setattr_keeps_id e i : is_id_item i = false -> id (setattr e i) = id e.
Proof. destruct i; simpl; congruence. Qed.

Lemma fold_setattr_keeps_id data e :
  forallb (fun i => negb (is_id_item i)) data = true ->
  id (fold_left setattr data e) = id e.
Proof.
  revert e; induction data as [|i data IH]; intros e; simpl; [reflexivity|].
  intros H. apply andb_prop in H. destruct H as [Hi Hd].
  rewrite IH by assumption. apply setattr_keeps_id.
  now destruct (is_id_item i).
Qed.

(** Whatever the dictionary holds, [update] leaves the [id] alone. *)
Lemma update_keeps_id e data : id (update e data) = id e.
Proof.
  unfold update, pop_id. apply fold_setattr_keeps_id.
  apply forallb_forall. intros i Hi. apply filter_In in Hi. tauto.
Qed.


Lemma update_model_dump e b : update e (model_dump b) = updated e b.
Proof. reflexivity. Qed.

Lemma replace_first_ids (p : TodoEntity -> bool) e' l :
  (forall e, find p l = Some e -> id e' = id e) ->
  map id (replace_first p e' l) = map id l.
Proof.
  induction l as [|x l IH]; simpl; [reflexivity|].
  destruct (p x); simpl; intros H.
  - f_equal. now apply H.
  - f_equal. now apply IH.
Qed.

Lemma mock_update_found self todo_id b e :
  find (fun todo => id todo =? todo_id) self = Some e ->
  exists l1 l2,
    self = l1 ++ e :: l2
    /\ MockTodoService.update_todo self todo_id b
       = (b' <- from_entity (updated e b) ;; Ok (Some b'), l1 ++ updated e b :: l2).
Proof.
  intros Hf. unfold MockTodoService.update_todo. rewrite Hf, update_model_dump.
  destruct (replace_first_split _ (updated e b) _ _ Hf) as (l1 & l2 & Hs & Hr & _).
  exists l1, l2. now rewrite Hr.
Qed.

Lemma durable_update_found self todo_id b e :
  Query.one_or_none (filter (fun row => id row =? todo_id) self) = Ok (Some e) ->
  exists l1 l2,
    self = l1 ++ e :: l2
    /\ TodoService.update_todo self todo_id b
       = (b' <- from_entity (updated e b) ;; Ok (Some b'), l1 ++ updated e b :: l2).
Proof.
  intros Ho. unfold TodoService.update_todo. rewrite Ho, update_model_dump.
  apply one_or_none_find in Ho.
  destruct (replace_first_split _ (updated e b) _ _ Ho) as (l1 & l2 & Hs & Hr & _).
  exists l1, l2. now rewrite Hr.
Qed.

End UpdateFacts.


(** C5 fails as stated: the boundary of a request that carries only the id and
    the title "X" has the defaults in its other fields, and [update_todo]
    writes them over the stored description, status and priority, in the mock
    and in the durable variant. *)
Lemma update_todo_title_payload_resets_other_fields :
  exists b,
    TodoBoundary_new "1" "X" None None None = Ok b
    /\ snd (MockTodoService.update_todo [stored_task] "1" b)
       = [ mkTodoEntity "1" "X" EmptyString "Pending" LOW ]
    /\ snd (TodoService.update_todo [stored_task] "1" b)
       = [ mkTodoEntity "1" "X" EmptyString "Pending" LOW ]
    /\ ~ (forall e', snd (MockTodoService.update_todo [stored_task] "1" b) = [e'] ->
                     description e' = description stored_task
                     /\ status e' = status stored_task
                     /\ priority e' = priority stored_task).
Proof.
  eexists. repeat split; try reflexivity.
  intros H. specialize (H _ eq_refl). destruct H as [H _]. discriminate H.
Qed.

(** C5 as amended: [update_todo] on the id of a stored task writes the title of
    the payload and, with it, the description, status and priority the payload
    carries; the id of the task and every other stored task stay as they
    were. The mock variant updates the first task of that id, the durable
    variant the only one. *)
Theorem update_todo_writes_payload_fields (self : list TodoEntity)
    (todo_id : string) (b : TodoBoundary) (e : TodoEntity) :
  find (fun todo => id todo =? todo_id) self = Some e ->
  exists l1 l2,
    self = l1 ++ e :: l2
    /\ snd (MockTodoService.update_todo self todo_id b)
       = l1 ++ mkTodoEntity (id e) (b_title b) (b_description b) (b_status b) (b_priority b)
            :: l2
    /\ (Query.one_or_none (filter (fun row => id row =? todo_id) self) = Ok (Some e) ->
        snd (TodoService.update_todo self todo_id b)
        = snd (MockTodoService.update_todo self todo_id b))
    /\ (b_description b = description e -> b_status b = status e ->
        b_priority b = priority e ->
        snd (MockTodoService.update_todo self todo_id b)
        = l1 ++ mkTodoEntity (id e) (b_title b) (description e) (status e) (priority e)
             :: l2).
Proof.
  intros Hf.
  destruct (UpdateFacts.mock_update_found self todo_id b e Hf) as (l1 & l2 & Hs & Hm).
  exists l1, l2.
  split; [exact Hs|]. split; [now rewrite Hm|]. split.
  - intros Ho. unfold TodoService.update_todo, MockTodoService.update_todo.
    now rewrite Ho, Hf.
  - intros Hd Hst Hp. rewrite Hm. simpl. unfold updated.
    now rewrite Hd, Hst, Hp.
Qed.

Lemma update_todo_writes_payload_fields_witness :
  exists l1 l2,
    [stored_task] = l1 ++ stored_task :: l2
    /\ snd (MockTodoService.update_todo [stored_task] "1" (mkTodoBoundary "1" "X" "d" "Done" HIGH))
       = l1 ++ mkTodoEntity "1" "X" "d" "Done" HIGH :: l2
    /\ (Query.one_or_none (filter (fun row => id row =? "1") [stored_task])
        = Ok (Some stored_task) ->
        snd (TodoService.update_todo [stored_task] "1" (mkTodoBoundary "1" "X" "d" "Done" HIGH))
        = snd (MockTodoService.update_todo [stored_task] "1"
                 (mkTodoBoundary "1" "X" "d" "Done" HIGH)))
    /\ ("d" = description stored_task -> "Done" = status stored_task ->
        HIGH = priority stored_task ->
        snd (MockTodoService.update_todo [stored_task] "1" (mkTodoBoundary "1" "X" "d" "Done" HIGH))
        = l1 ++ mkTodoEntity "1" "X" "d" "Done" HIGH :: l2).
Proof.
  apply (update_todo_writes_payload_fields [stored_task] "1"
           (mkTodoBoundary "1" "X" "d" "Done" HIGH) stored_task).
  reflexivity.
Defined.

(** C6: [update_todo] never changes a stored id, whatever id the payload
    carries. When no stored task has the target id the result is [None] and
    the store is untouched; otherwise the task found keeps its id and takes
    the title, description, status and priority of the payload, and the other
    tasks are untouched. This holds in the mock and in the durable variant
    (where a lookup that raises leaves the table untouched as well), and the
    entity's own [update] keeps the id for every dictionary. *)
Theorem update_todo_never_changes_id (self : list TodoEntity)
    (todo_id : string) (b : TodoBoundary) :
  (forall e data, id (update e data) = id e)
  /\ map id (snd (MockTodoService.update_todo self todo_id b)) = map id self
  /\ map id (snd (TodoService.update_todo self todo_id b)) = map id self
  /\ match find (fun todo => id todo =? todo_id) self with
     | None => MockTodoService.update_todo self todo_id b = (Ok None, self)
     | Some e =>
         exists l1 l2,
           self = l1 ++ e :: l2
           /\ snd (MockTodoService.update_todo self todo_id b)
              = l1 ++ mkTodoEntity (id e) (b_title b) (b_description b)
                        (b_status b) (b_priority b) :: l2
     end
  /\ match Query.one_or_none (filter (fun row => id row =? todo_id) self) with
     | Raise err => TodoService.update_todo self todo_id b = (Raise err, self)
     | Ok None => TodoService.update_todo self todo_id b = (Ok None, self)
     | Ok (Some e) =>
         exists l1 l2,
           self = l1 ++ e :: l2
           /\ snd (TodoService.update_todo self todo_id b)
              = l1 ++ mkTodoEntity (id e) (b_title b) (b_description b)
                        (b_status b) (b_priority b) :: l2
     end.
Proof.
  split; [exact UpdateFacts.update_keeps_id|].
  split; [|split; [|split]].
  - unfold MockTodoService.update_todo.
    destruct (find _ self) as [e|] eqn:Hf; simpl; [|reflexivity].
    apply UpdateFacts.replace_first_ids. intros e0 He0.
    rewrite Hf in He0. injection He0 as <-. apply UpdateFacts.update_keeps_id.
  - unfold TodoService.update_todo.
    destruct (Query.one_or_none _) as [[e|]|err] eqn:Ho; simpl; try reflexivity.
    apply UpdateFacts.replace_first_ids. intros e0 He0.
    rewrite (one_or_none_find _ _ _ Ho) in He0. injection He0 as <-.
    apply UpdateFacts.update_keeps_id.
  - destruct (find _ self) as [e|] eqn:Hf.
    + destruct (UpdateFacts.mock_update_found self todo_id b e Hf) as (l1 & l2 & Hs & Hm).
      exists l1, l2. now rewrite Hm.
    + unfold MockTodoService.update_todo. now rewrite Hf.
  - destruct (Query.one_or_none _) as [[e|]|err] eqn:Ho.
    + destruct (UpdateFacts.durable_update_found self todo_id b e Ho) as (l1 & l2 & Hs & Hm).
      exists l1, l2. now rewrite Hm.
    + unfold TodoService.update_todo. now rewrite Ho.
    + unfold TodoService.update_todo. now rewrite Ho.
Qed.

(* ===================================================================== *)
(** * Registration and login                                              *)
(* ===================================================================== *)

Section UniqueKey.
Context {A : Type} (key : A -> string).

Lemma filter_key_absent rows v :
  ~ In v (map key rows) -> filter (fun row => key row =? v) rows = [].
Proof.
  induction rows as [|r rows IH]; simpl; [reflexivity|].
  intros Hn. destruct (String.eqb_spec (key r) v) as [Heq|Hne].
  - exfalso. apply Hn. now left.
  - apply IH. intros Hin. apply Hn. now right.
Qed.

(** Under a unique constraint on [key], a stored row is the only row with
    its key. *)
Lemma filter_key_unique rows row :
  NoDup (map key rows) -> In row rows ->
  filter (fun r => key r =? key row) rows = [row].
Proof.
  induction rows as [|r rows IH]; simpl; [tauto|].
  intros Hnd Hin. inversion Hnd as [|? ? Hnotin Hnd']; subst.
  destruct Hin as [->|Hin].
  - rewrite String.eqb_refl. f_equal. now apply filter_key_absent.
  - destruct (String.eqb_spec (key r) (key row)) as [Heq|Hne].
    + exfalso. apply Hnotin. rewrite Heq. now apply in_map.
    + now apply IH.
Qed.
End UniqueKey.

Section AuthFacts.
Context (crypto_ctx : CryptContext) (jwt : Jose) (config : Config)
        (email_ok : string -> bool).

Lemma login_unknown_user self user_login now :
  ~ In (UserLogin.username user_login) (map UserEntity.username self) ->
  UserService.login crypto_ctx jwt config self user_login now = Ok None.
Proof.
  intros Hn. unfold UserService.login.
  now rewrite (filter_key_absent UserEntity.username) by assumption.
Qed.

Lemma login_wrong_password self user user_password now :
  NoDup (map UserEntity.username self) -> In user self ->
  verify crypto_ctx user_password (UserEntity.hashed_password user) = false ->
  UserService.login crypto_ctx jwt config self
    (UserLogin.mk (UserEntity.username user) user_password) now = Ok None.
Proof.
  intros Hnd Hin Hv. unfold UserService.login. simpl UserLogin.username.
  rewrite (filter_key_unique UserEntity.username) by assumption.
  simpl. now rewrite Hv.
Qed.

Lemma login_right_password self user user_password now :
  NoDup (map UserEntity.username self) -> In user self ->
  verify crypto_ctx user_password (UserEntity.hashed_password user) = true ->
  UserService.login crypto_ctx jwt config self
    (UserLogin.mk (UserEntity.username user) user_password) now
  = Ok (Some (TokenGenerator.create_access_token jwt config
                [("sub", claim_str (UserEntity.username user))] 30 now)).
Proof.
  intros Hnd Hin Hv. unfold UserService.login. simpl UserLogin.username.
  rewrite (filter_key_unique UserEntity.username) by assumption.
  simpl. now rewrite Hv.
Qed.

(** The token of a login expires 30 minutes after the clock reading and
    names the user as its subject. *)
Lemma create_access_token_claims name now :
  TokenGenerator.create_access_token jwt config [("sub", claim_str name)] 30 now
  = jwt_encode jwt
      [("sub", claim_str name); ("exp", claim_datetime (now + 1800000000)%Z)]
      (JWT_SECRET_KEY config) (JWT_ALGORITHM config).
Proof. reflexivity. Qed.
End AuthFacts.

(** C7: a login with a username no stored user has and a login with the
    username of a stored user and a password that does not verify give the
    same outcome, at any two times: the service returns [None] for both and
    the controller raises the same 401 with the same detail for both. *)
Theorem login_failures_indistinguishable (crypto_ctx : CryptContext) (jwt : Jose)
    (config : Config) (self : UserService.t) (user : UserEntity.t)
    (unknown_name any_password wrong_password : string) (now now' : datetime) :
  NoDup (map UserEntity.username self) ->
  ~ In unknown_name (map UserEntity.username self) ->
  In user self ->
  verify crypto_ctx wrong_password (UserEntity.hashed_password user) = false ->
  UserService.login crypto_ctx jwt config self
    (UserLogin.mk unknown_name any_password) now = Ok None
  /\ UserService.login crypto_ctx jwt config self
       (UserLogin.mk (UserEntity.username user) wrong_password) now' = Ok None
  /\ UserController.login crypto_ctx jwt config
       (UserLogin.mk unknown_name any_password) self now
     = Raise (HTTPException 401 "Invalid username or password")
  /\ UserController.login crypto_ctx jwt config
       (UserLogin.mk (UserEntity.username user) wrong_password) self now'
     = Raise (HTTPException 401 "Invalid username or password").
Proof.
  intros Hnd Hun Hin Hv.
  assert (H1 := login_unknown_user crypto_ctx jwt config self
                  (UserLogin.mk unknown_name any_password) now Hun).
  assert (H2 := login_wrong_password crypto_ctx jwt config self user
                  wrong_password now' Hnd Hin Hv).
  unfold UserController.login. rewrite H1, H2. repeat split.
Qed.


Lemma login_failures_indistinguishable_witness :
  UserService.login example_crypto_ctx example_jose example_config [alice]
    (UserLogin.mk "nosuchuser" "anything") 0%Z = Ok None
  /\ UserService.login example_crypto_ctx example_jose example_config [alice]
       (UserLogin.mk (UserEntity.username alice) "wrongpass") 1%Z = Ok None
  /\ UserController.login example_crypto_ctx example_jose example_config
       (UserLogin.mk "nosuchuser" "anything") [alice] 0%Z
     = Raise (HTTPException 401 "Invalid username or password")
  /\ UserController.login example_crypto_ctx example_jose example_config
       (UserLogin.mk (UserEntity.username alice) "wrongpass") [alice] 1%Z
     = Raise (HTTPException 401 "Invalid username or password").
Proof.
  apply (login_failures_indistinguishable example_crypto_ctx example_jose
           example_config [alice] alice "nosuchuser" "anything" "wrongpass" 0%Z 1%Z).
  - repeat constructor. simpl. tauto.
  - simpl. intros [H|[]]. discriminate H.
  - simpl. tauto.
  - reflexivity.
Defined.

Lemma string_length_append (s1 s2 : string) :
  String.length (s1 ++ s2)%string = (String.length s1 + String.length s2)%nat.
Proof. induction s1 as [|c s1 IH]; simpl; [reflexivity|]. now rewrite IH. Qed.

Section RegisterFacts.
Context (crypto_ctx : CryptContext) (email_ok : string -> bool).


Lemma register_table self b salt uuid :
  snd (UserService.register crypto_ctx email_ok self b salt uuid) = self
  \/ snd (UserService.register crypto_ctx email_ok self b salt uuid)
     = self ++ [registered_row crypto_ctx b salt uuid].
Proof.
  unfold UserService.register, UserService.commit_add. simpl.
  repeat match goal with
         | |- context [if ?c then _ else _] => destruct c; simpl; auto
         end.
Qed.

Lemma register_view self b salt uuid view :
  fst (UserService.register crypto_ctx email_ok self b salt uuid) = Ok view ->
  view = UserFilteredBoundary.mk uuid (UserBoundary.username b) (UserBoundary.email b)
           (UserBoundary.first_name b) (UserBoundary.last_name b) None
  /\ snd (UserService.register crypto_ctx email_ok self b salt uuid)
     = self ++ [registered_row crypto_ctx b salt uuid].
Proof.
  unfold UserService.register. simpl.
  destruct (UserService.commit_add self _) as [self'|err] eqn:Hc; simpl;
    [|discriminate].
  unfold UserFilteredBoundary.from_entity. simpl.
  repeat match goal with
         | |- context [if ?c then _ else _] => destruct c; simpl; try discriminate
         end.
  intros [= <-]. split; [reflexivity|].
  unfold UserService.commit_add in Hc. simpl in Hc.
  repeat match type of Hc with
         | context [if ?c then _ else _] => destruct c; simpl in Hc; try discriminate
         end.
  now injection Hc as <-.
Qed.
End RegisterFacts.

Lemma existsb_key {A} (key : A -> string) rows v :
  existsb (fun r => key r =? v) rows = true <-> In v (map key rows).
Proof.
  rewrite existsb_exists, in_map_iff. split.
  - intros (x & Hx & He). apply String.eqb_eq in He. eauto.
  - intros (x & He & Hx). exists x. split; [exact Hx|now apply String.eqb_eq].
Qed.

Lemma existsb_key_false {A} (key : A -> string) rows v :
  existsb (fun r => key r =? v) rows = false <-> ~ In v (map key rows).
Proof.
  rewrite <- existsb_key. destruct (existsb _ rows); intuition congruence.
Qed.

(** The two outcomes of a commit: a violated constraint, or the row at the end
    of the table with all four values new. *)
Lemma commit_add_cases rows row :
  (exists orig,
      UserService.commit_add rows row = Raise (IntegrityError orig)
      /\ (In (UserEntity.id row) (map UserEntity.id rows)
          \/ In (UserEntity.username row) (map UserEntity.username rows)
          \/ In (UserEntity.email row) (map UserEntity.email rows)
          \/ In (UserEntity.hashed_password row) (map UserEntity.hashed_password rows)))
  \/ (UserService.commit_add rows row = Ok (rows ++ [row])
      /\ ~ In (UserEntity.id row) (map UserEntity.id rows)
      /\ ~ In (UserEntity.username row) (map UserEntity.username rows)
      /\ ~ In (UserEntity.email row) (map UserEntity.email rows)
      /\ ~ In (UserEntity.hashed_password row) (map UserEntity.hashed_password rows)).
Proof.
  unfold UserService.commit_add.
  destruct (existsb _ rows) eqn:H1;
    [left; eexists; split; [reflexivity|]; apply existsb_key in H1; tauto|].
  destruct (existsb (fun r => UserEntity.username r =? _) rows) eqn:H2;
    [left; eexists; split; [reflexivity|]; apply existsb_key in H2; tauto|].
  destruct (existsb (fun r => UserEntity.email r =? _) rows) eqn:H3;
    [left; eexists; split; [reflexivity|]; apply existsb_key in H3; tauto|].
  destruct (existsb (fun r => UserEntity.hashed_password r =? _) rows) eqn:H4;
    [left; eexists; split; [reflexivity|]; apply existsb_key in H4; tauto|].
  right. apply existsb_key_false in H1, H2, H3, H4. tauto.
Qed.

Lemma register_unfold crypto_ctx email_ok self b salt uuid :
  UserService.register crypto_ctx email_ok self b salt uuid
  = match UserService.commit_add self (registered_row crypto_ctx b salt uuid) with
    | Raise e => (Raise e, self)
    | Ok self' =>
        (UserFilteredBoundary.from_entity email_ok (registered_row crypto_ctx b salt uuid),
         self')
    end.
Proof. reflexivity. Qed.

Lemma view_accepts_from_entity crypto_ctx email_ok b salt uuid :
  (view_accepts email_ok b = true ->
   UserFilteredBoundary.from_entity email_ok (registered_row crypto_ctx b salt uuid)
   = Ok (UserFilteredBoundary.mk uuid (UserBoundary.username b) (UserBoundary.email b)
           (UserBoundary.first_name b) (UserBoundary.last_name b) None))
  /\ (view_accepts email_ok b = false ->
      exists msg,
        UserFilteredBoundary.from_entity email_ok (registered_row crypto_ctx b salt uuid)
        = Raise (ValidationError msg)).
Proof.
  unfold view_accepts, UserFilteredBoundary.from_entity. simpl.
  destruct (String.length (UserBoundary.username b) <? 3)%nat; simpl;
    [split; [discriminate|eauto]|].
  destruct (email_ok (UserBoundary.email b)); simpl; [|split; [discriminate|eauto]].
  destruct (String.length (UserBoundary.first_name b) <? 1)%nat; simpl;
    [split; [discriminate|eauto]|].
  destruct (String.length (UserBoundary.last_name b) <? 1)%nat; simpl;
    [split; [discriminate|eauto]|].
  split; [reflexivity|discriminate].
Qed.

(** C9: what [register] persists and returns, with a hasher whose digest is
    never its input. When the id, username, email or digest of the request is
    in the table already, [IntegrityError] is raised, nothing is stored and
    nothing is returned. Otherwise exactly one row is added, at the end: it
    holds the id, username, email and names of the request and, as
    [hashed_password], the digest [crypto_ctx.hash] gives for the password,
    which is not the password; and the view of that row is returned, with no
    password in it or in its dump, unless the view rejects a value of the row.
    No other row is ever stored and no other view ever returned. *)
Theorem register_stores_digest_and_hides_password (crypto_ctx : CryptContext)
    (email_ok : string -> bool) (self : UserService.t) (b : UserBoundary.t)
    (salt uuid : string) :
  (forall s raw, hash crypto_ctx s raw <> raw) ->
  let row := UserEntity.mk uuid (UserBoundary.username b) (UserBoundary.email b)
               (UserBoundary.first_name b) (UserBoundary.last_name b)
               (hash crypto_ctx salt (UserBoundary.password b)) in
  let view := UserFilteredBoundary.mk uuid (UserBoundary.username b)
                (UserBoundary.email b) (UserBoundary.first_name b)
                (UserBoundary.last_name b) None in
  let result := UserService.register crypto_ctx email_ok self b salt uuid in
  (taken self row -> exists orig, result = (Raise (IntegrityError orig), self))
  /\ (~ taken self row -> fits_columns row ->
      snd result = self ++ [row]
      /\ (view_accepts email_ok b = true -> fst result = Ok view)
      /\ (view_accepts email_ok b = false ->
          exists msg, fst result = Raise (ValidationError msg)))
  /\ (snd result = self \/ snd result = self ++ [row])
  /\ (forall r, In r (snd result) ->
        In r self
        \/ (r = row
            /\ UserEntity.hashed_password r
               = UserEntity.hashed_password (UserEntity.from_boundary crypto_ctx salt b)
            /\ UserEntity.hashed_password r = hash crypto_ctx salt (UserBoundary.password b)
            /\ UserEntity.hashed_password r <> UserBoundary.password b))
  /\ (forall v,
        fst result = Ok v ->
        snd result = self ++ [row]
        /\ v = view
        /\ UserFilteredBoundary.password v = None
        /\ dict_get "password" (UserFilteredBoundary.model_dump v) = None
        /\ UserFilteredBoundary.model_dump v
           = [ ("id", uuid); ("username", UserBoundary.username b);
               ("email", UserBoundary.email b);
               ("first_name", UserBoundary.first_name b);
               ("last_name", UserBoundary.last_name b) ]).
Proof.
  intros Hhash row result0 result. subst result. rewrite register_unfold.
  change (registered_row crypto_ctx b salt uuid) with row.
  destruct (view_accepts_from_entity crypto_ctx email_ok b salt uuid) as [Hacc Hrej].
  change (registered_row crypto_ctx b salt uuid) with row in Hacc, Hrej.
  destruct (commit_add_cases self row)
    as [(orig & Hc & Ht)|(Hc & N1 & N2 & N3 & N4)]; rewrite Hc; simpl.
  - split; [intros _; now exists orig|].
    split; [intros Hn; elim Hn; exact Ht|].
    split; [now left|].
    split; [intros r Hr; now left|].
    intros v Hv. discriminate Hv.
  - split; [intros Ht; unfold taken in Ht; tauto|].
    split; [intros _ _; repeat split; assumption|].
    split; [now right|].
    split.
    + intros r Hr. apply in_app_or in Hr. destruct Hr as [Hr|[<-|[]]]; [now left|].
      right. repeat split. apply Hhash.
    + intros v Hv. destruct (view_accepts email_ok b).
      * rewrite (Hacc eq_refl) in Hv. injection Hv as <-. repeat split.
      * destruct (Hrej eq_refl) as [msg Hm]. rewrite Hm in Hv. discriminate Hv.
Qed.

Lemma register_stores_digest_and_hides_password_witness :
  snd (UserService.register example_crypto_ctx example_email_ok [alice] bob "s" "u2")
  = [alice] ++ [UserEntity.mk "u2" "bob" "bob@example.org" "Bob" "B"
                  (hash example_crypto_ctx "s" "builder")]
  /\ (view_accepts example_email_ok bob = true ->
      fst (UserService.register example_crypto_ctx example_email_ok [alice] bob "s" "u2")
      = Ok (UserFilteredBoundary.mk "u2" "bob" "bob@example.org" "Bob" "B" None))
  /\ (view_accepts example_email_ok bob = false ->
      exists msg,
        fst (UserService.register example_crypto_ctx example_email_ok [alice] bob "s" "u2")
        = Raise (ValidationError msg)).
Proof.
  destruct (register_stores_digest_and_hides_password example_crypto_ctx
              example_email_ok [alice] bob "s" "u2") as (_ & H & _).
  - intros s raw H. apply (f_equal String.length) in H. simpl in H.
    rewrite !string_length_append in H. simpl in H.
    rewrite string_length_append in H. simpl in H. lia.
  - apply H.
    + unfold taken. simpl. intuition discriminate.
    + unfold fits_columns. simpl. lia.
Defined.

(** The registration of the example succeeds: the view comes back and the row
    with the digest is in the table. *)
Example register_bob :
  UserService.register example_crypto_ctx example_email_ok [alice] bob "s" "u2"
  = (Ok (UserFilteredBoundary.mk "u2" "bob" "bob@example.org" "Bob" "B" None),
     [alice; UserEntity.mk "u2" "bob" "bob@example.org" "Bob" "B" "s$builder#"]).
Proof. reflexivity. Qed.

(** C10: the form endpoint gives what the JSON endpoint gives for the username
    and password of the form, on the same table and at the same clock reading;
    the other fields of the form play no part. Both give the token the service
    minted, wrapped in a [Token], and otherwise the same exception: the 401 of a
    failed login or whatever the lookup raised. *)
Theorem form_login_same_as_login (crypto_ctx : CryptContext) (jwt : Jose)
    (config : Config) (user_service : UserService.t) (now : datetime)
    (grant_type_ : option string) (username_ password_ : string)
    (scopes_ : list string) (client_id_ client_secret_ : option string) :
  let form := UserController.form_login crypto_ctx jwt config
                (UserController.mkForm grant_type_ username_ password_ scopes_
                   client_id_ client_secret_) user_service now in
  let json := UserController.login crypto_ctx jwt config
                (UserLogin.mk username_ password_) user_service now in
  form = json
  /\ match UserService.login crypto_ctx jwt config user_service
             (UserLogin.mk username_ password_) now with
     | Ok (Some token) =>
         if (token =? EmptyString)%string
         then form = Raise (HTTPException 401 "Invalid username or password")
         else form = Ok (Token.mk token) /\ json = Ok (Token.mk token)
     | Ok None => form = Raise (HTTPException 401 "Invalid username or password")
     | Raise e => form = Raise e
     end.
Proof.
  intros form json. split; [reflexivity|].
  subst form json. unfold UserController.form_login, UserController.login.
  simpl UserController.username. simpl UserController.password.
  destruct (UserService.login crypto_ctx jwt config user_service _ now)
    as [[token|]|e]; simpl; try reflexivity.
  destruct (token =? EmptyString)%string; [reflexivity|now split].
Qed.

(** A successful login of the example through either endpoint. *)
Example alice_logs_in :
  UserController.form_login example_crypto_ctx example_jose example_config
    (UserController.mkForm None "alice" "wonderland" [] None None) [alice] 0%Z
  = Ok (Token.mk "HS256.alice.secret")
  /\ UserController.login example_crypto_ctx example_jose example_config
       (UserLogin.mk "alice" "wonderland") [alice] 0%Z
     = Ok (Token.mk "HS256.alice.secret").
Proof. split; reflexivity. Qed.

(* ===================================================================== *)
(** * Further properties of listing and searching                         *)
(* ===================================================================== *)

Lemma from_entity_inv e b :
  from_entity e = Ok b -> b = to_boundary e /\ title e <> EmptyString.
Proof.
  unfold from_entity, TodoBoundary_new, to_boundary.
  destruct (title e); simpl; [discriminate|].
  intros [= <-]. split; [reflexivity|discriminate].
Qed.

Lemma comprehension_from_entity_inv l r :
  comprehension from_entity l = Ok r -> r = map to_boundary l /\ store_ok l.
Proof.
  revert r; induction l as [|e l IH]; simpl; intros r.
  - intros [= <-]. split; [reflexivity|constructor].
  - destruct (from_entity e) as [b|] eqn:He; simpl; [|discriminate].
    destruct (comprehension from_entity l) as [bs|]; simpl; [|discriminate].
    intros [= <-]. destruct (from_entity_inv _ _ He) as [-> Ht].
    destruct (IH bs eq_refl) as [-> Hok]. split; [reflexivity|now constructor].
Qed.

Lemma In_firstn {A} n (l : list A) x : In x (firstn n l) -> In x l.
Proof.
  intros H. rewrite <- (firstn_skipn n l). apply in_or_app. now left.
Qed.

Lemma In_skipn {A} n (l : list A) x : In x (skipn n l) -> In x l.
Proof.
  intros H. rewrite <- (firstn_skipn n l). apply in_or_app. now right.
Qed.

Lemma In_slice {A} (l : list A) lo hi x : In x (slice l lo hi) -> In x l.
Proof. unfold slice. intros H. eapply In_skipn, In_firstn, H. Qed.

Lemma In_sorted {A} (leb : A -> A -> bool) l x : In x (sorted leb l) -> In x l.
Proof. apply Permutation_in, sorted_Permutation. Qed.

Lemma slice_past_end {A} (l : list A) lo hi :
  (0 <= lo <= hi)%Z -> (List.length l <= Z.to_nat lo)%nat -> slice l lo hi = [].
Proof.
  intros Hb Hl. rewrite slice_nonneg by assumption.
  rewrite skipn_all2 by assumption. apply firstn_nil.
Qed.

Lemma offset_nonneg p : Pagination_valid p -> (0 <= offset p)%Z.
Proof. intros [Hp Hs]. unfold offset. nia. Qed.

(** X1. The pages of the mock listing ordered by title or by status: every
    page is in order, has at most [size] records, all of them stored, and
    pages 1 to n together hold every stored task exactly once when n pages are
    enough for the store. *)
Theorem mock_listing_pages_cover_store (self : MockTodoService.t) (p : Pagination)
    (n : nat) :
  store_ok self -> (0 < size p)%Z ->
  order_by p = by_title \/ order_by p = by_status ->
  (List.length self <= n * Z.to_nat (size p))%nat ->
  (forall k, exists es,
      MockTodoService.get_all_todos self (nth_page p (S k)) = Ok (map to_boundary es)
      /\ (List.length es <= Z.to_nat (size p))%nat
      /\ Sorted (le_of (order_leb (order_by p) (desc p))) es
      /\ incl es self)
  /\ exists r, concat_pages (MockTodoService.get_all_todos self) (first_pages p n) = Ok r
               /\ Permutation r (map to_boundary self).
Proof.
  intros Hok Hs _ Hn. split.
  - intros k. exists (MockTodoService.all_todo_entities self (nth_page p (S k))).
    rewrite MockTodoServiceFacts.all_todo_entities_window by assumption.
    repeat split.
    + unfold MockTodoService.get_all_todos.
      rewrite MockTodoServiceFacts.all_todo_entities_window by assumption.
      apply comprehension_from_entity.
      now apply store_ok_sorted, store_ok_firstn, store_ok_skipn.
    + rewrite sorted_length. apply firstn_le_length.
    + apply sorted_Sorted, order_leb_total.
    + intros e He. eapply In_skipn, In_firstn, In_sorted, He.
  - now apply MockTodoServiceFacts.get_all_todos_pages_Permutation.
Qed.

Lemma mock_listing_pages_cover_store_witness :
  exists r, concat_pages (MockTodoService.get_all_todos store_b_a)
              (first_pages (one_per_page by_title) 2) = Ok r
            /\ Permutation r (map to_boundary store_b_a).
Proof.
  apply (mock_listing_pages_cover_store store_b_a (one_per_page by_title) 2).
  - repeat constructor; discriminate.
  - reflexivity.
  - now left.
  - simpl. lia.
Defined.

(** X3. A search returns stored tasks that match: every record of a title
    search has the title searched for, in both variants, and every record of
    the mock priority search has the priority the search value names. *)
Theorem search_returns_only_matches (self : list TodoEntity) (v : string)
    (p : Pagination) (r : list TodoBoundary) :
  (MockTodoService.get_todo_by_title self v p = Ok r ->
   Forall (fun b => b_title b = v /\ exists e, In e self /\ b = to_boundary e) r)
  /\ (TodoService.get_todo_by_title self v p = Ok r ->
      Forall (fun b => b_title b = v /\ exists e, In e self /\ b = to_boundary e) r)
  /\ (MockTodoService.get_todo_by_priority self v p = Ok r ->
      exists pr, upper v = Priority_value pr
                 /\ Forall (fun b => b_priority b = pr
                                     /\ exists e, In e self /\ b = to_boundary e) r).
Proof.
  split; [|split].
  - intros H. apply comprehension_from_entity_inv in H. destruct H as [-> _].
    apply Forall_forall. intros b Hb. apply in_map_iff in Hb.
    destruct Hb as (e & <- & He).
    apply In_sorted, In_slice, filter_In in He. destruct He as [Hin Ht].
    apply String.eqb_eq in Ht. split; [exact Ht|now exists e].
  - intros H. apply comprehension_from_entity_inv in H. destruct H as [-> _].
    apply Forall_forall. intros b Hb. apply in_map_iff in Hb.
    destruct Hb as (e & <- & He). unfold Query.query_all in He.
    apply In_firstn, In_skipn, In_sorted, filter_In in He. destruct He as [Hin Ht].
    apply String.eqb_eq in Ht. split; [exact Ht|now exists e].
  - unfold MockTodoService.get_todo_by_priority.
    destruct (Priority_of_value (upper v)) as [pr|err] eqn:Hp.
    + intros H. exists pr. split.
      * unfold Priority_of_value in Hp.
        destruct (String.eqb_spec (upper v) "LOW") as [->|_];
          [now injection Hp as <-|].
        destruct (String.eqb_spec (upper v) "MEDIUM") as [->|_];
          [now injection Hp as <-|].
        destruct (String.eqb_spec (upper v) "HIGH") as [->|_];
          [now injection Hp as <-|discriminate].
      * apply comprehension_from_entity_inv in H. destruct H as [-> _].
        apply Forall_forall. intros b Hb. apply in_map_iff in Hb.
        destruct Hb as (e & <- & He).
        apply In_sorted, In_slice, filter_In in He. destruct He as [Hin Ht].
        split; [|now exists e]. simpl.
        destruct (priority e), pr; vm_compute in Ht; congruence.
    + destruct err; discriminate.
Qed.

(** X4. A page that starts past the last record is the empty list and no
    error: for the listing and the title search of the mock variant with every
    valid pagination, and for those of the durable variant when offset and
    limit are below 2^63, the integers the driver takes. *)
Theorem page_past_the_end_is_empty (self : list TodoEntity) (v : string)
    (p : Pagination) :
  Pagination_valid p ->
  (List.length self <= Z.to_nat (offset p))%nat ->
  MockTodoService.get_all_todos self p = Ok []
  /\ MockTodoService.get_todo_by_title self v p = Ok []
  /\ ((offset p < 2 ^ 63)%Z -> (size p < 2 ^ 63)%Z ->
      TodoService.get_all_todos self p = Ok []
      /\ TodoService.get_todo_by_title self v p = Ok []).
Proof.
  intros Hv Hl. pose proof (offset_nonneg p Hv) as Ho. destruct Hv as [_ Hs].
  assert (Hf : (List.length (filter (fun e => (title e =? v)%string) self)
                <= Z.to_nat (offset p))%nat).
  { etransitivity; [apply filter_length_le|exact Hl]. }
  split; [|split; [|intros _ _; split]].
  - unfold MockTodoService.get_all_todos, MockTodoService.all_todo_entities.
    now rewrite slice_past_end by lia.
  - unfold MockTodoService.get_todo_by_title, MockTodoService.title_todo_entities.
    now rewrite slice_past_end by lia.
  - unfold TodoService.get_all_todos, Query.query_all.
    rewrite skipn_all2; [now rewrite firstn_nil|].
    rewrite sorted_length. etransitivity; [apply filter_length_le|exact Hl].
  - unfold TodoService.get_todo_by_title, Query.query_all.
    rewrite skipn_all2; [now rewrite firstn_nil|].
    now rewrite sorted_length.
Qed.

Lemma page_past_the_end_is_empty_witness :
  MockTodoService.get_all_todos store_b_a (mkPagination 2 5 by_title false) = Ok []
  /\ MockTodoService.get_todo_by_title store_b_a "a" (mkPagination 2 5 by_title false) = Ok []
  /\ ((offset (mkPagination 2 5 by_title false) < 2 ^ 63)%Z ->
      (size (mkPagination 2 5 by_title false) < 2 ^ 63)%Z ->
      TodoService.get_all_todos store_b_a (mkPagination 2 5 by_title false) = Ok []
      /\ TodoService.get_todo_by_title store_b_a "a" (mkPagination 2 5 by_title false)
         = Ok []).
Proof.
  apply (page_past_the_end_is_empty store_b_a "a" (mkPagination 2 5 by_title false)).
  - split; reflexivity.
  - simpl. lia.
Defined.

Lemma Priority_of_value_value pr : Priority_of_value (Priority_value pr) = Ok pr.
Proof. now destruct pr. Qed.

(** X6. With ids that are unique, the lookup by id of the mock variant (called
    with the id alone) and of the durable variant (called with anything after
    the id) give the same result: the first task of that id is the only one. *)
Theorem id_lookup_variants_agree (self : list TodoEntity) (v : string)
    (args : list Pagination) :
  NoDup (map id self) ->
  MockTodoService.get_todo_by_id self v [] = TodoService.get_todo_by_id self v args.
Proof.
  intros Hnd. unfold TodoService.get_todo_by_id, MockTodoService.get_todo_by_id.
  rewrite SearchFacts.filter_unique_id by assumption.
  destruct (find _ self); reflexivity.
Qed.

Lemma id_lookup_variants_agree_witness :
  MockTodoService.get_todo_by_id store_b_a "2" []
  = TodoService.get_todo_by_id store_b_a "2" [Pagination_default].
Proof.
  apply (id_lookup_variants_agree store_b_a "2" [Pagination_default]).
  repeat constructor; simpl; intuition discriminate.
Defined.

(** X7. The mock priority search and its search value: when the upper-cased
    value is the value of no priority, the search raises the [ValueError] of
    the service, on every store and for every pagination; when it is the value
    of [pr], the titles of the store are valid and the order is by title or by
    status, the search returns the page of the tasks of priority [pr]. *)
Theorem mock_priority_search_fails_only_on_unknown_value (self : MockTodoService.t)
    (v : string) (p : Pagination) :
  ((forall pr, upper v <> Priority_value pr) ->
   MockTodoService.get_todo_by_priority self v p
   = Raise (ValueError MockTodoService.invalid_priority_message))
  /\ (forall pr, upper v = Priority_value pr ->
        store_ok self ->
        order_by p = by_title \/ order_by p = by_status ->
        MockTodoService.get_todo_by_priority self v p
        = Ok (map to_boundary (MockTodoService.priority_todo_entities self pr p))).
Proof.
  unfold MockTodoService.get_todo_by_priority. split.
  - intros Hno. unfold Priority_of_value.
    destruct (String.eqb_spec (upper v) "LOW") as [H|_]; [now elim (Hno LOW)|].
    destruct (String.eqb_spec (upper v) "MEDIUM") as [H|_]; [now elim (Hno MEDIUM)|].
    destruct (String.eqb_spec (upper v) "HIGH") as [H|_]; [now elim (Hno HIGH)|].
    reflexivity.
  - intros pr -> Hok _. rewrite Priority_of_value_value.
    apply comprehension_from_entity. unfold MockTodoService.priority_todo_entities.
    apply store_ok_sorted. unfold slice.
    now apply store_ok_firstn, store_ok_skipn, store_ok_filter.
Qed.

Lemma mock_priority_search_fails_only_on_unknown_value_witness :
  MockTodoService.get_todo_by_priority store_b_a "Low" Pagination_default
  = Ok (map to_boundary
          (MockTodoService.priority_todo_entities store_b_a LOW Pagination_default)).
Proof.
  apply (mock_priority_search_fails_only_on_unknown_value store_b_a "Low" Pagination_default).
  - reflexivity.
  - repeat constructor; discriminate.
  - now left.
Defined.

(** X8. Through the search route of the durable variant, with unique ids and
    valid titles, a search by ID answers with the task of that id when it is
    stored and raises a 404 when it is not, whatever the pagination. *)
Theorem durable_search_by_id_finds_or_404 (self : TodoService.t) (v : string)
    (p : Pagination) :
  NoDup (map id self) -> store_ok self ->
  match find (fun row => id row =? v) self with
  | Some e =>
      TodoController.get_todo_by_attribute (mkSearchByPagination p ID v) (sql_store self)
      = Ok (TodoController.one_todo (to_boundary e))
  | None =>
      exists detail,
        TodoController.get_todo_by_attribute (mkSearchByPagination p ID v) (sql_store self)
        = Raise (HTTPException 404 detail)
  end.
Proof.
  intros Hnd Hok.
  unfold TodoController.get_todo_by_attribute, TodoController.method. simpl.
  unfold TodoService.get_todo_by_id.
  rewrite SearchFacts.filter_unique_id by assumption.
  destruct (find _ self) as [e|] eqn:Hf; simpl; [|eexists; reflexivity].
  rewrite from_entity_ok; [reflexivity|].
  apply find_some in Hf. destruct Hf as [Hin _].
  unfold store_ok in Hok. rewrite Forall_forall in Hok. now apply Hok.
Qed.

Lemma durable_search_by_id_finds_or_404_witness :
  TodoController.get_todo_by_attribute
    (mkSearchByPagination Pagination_default ID "2") (sql_store store_b_a)
  = Ok (TodoController.one_todo (to_boundary (task "2" "a" EmptyString LOW))).
Proof.
  apply (durable_search_by_id_finds_or_404 store_b_a "2" Pagination_default).
  - repeat constructor; simpl; intuition discriminate.
  - repeat constructor; discriminate.
Defined.

(* ===================================================================== *)
(** * Creating, updating and deleting tasks                               *)
(* ===================================================================== *)

Lemma TodoEntity_eqb_refl e : TodoEntity_eqb e e = true.
Proof.
  unfold TodoEntity_eqb, Priority_eqb.
  now rewrite !String.eqb_refl, Nat.eqb_refl.
Qed.

Lemma TodoEntity_eqb_id a b : id a <> id b -> TodoEntity_eqb a b = false.
Proof.
  intros H. unfold TodoEntity_eqb.
  apply String.eqb_neq in H. now rewrite H.
Qed.

Lemma find_id_spec (l : list TodoEntity) v e :
  find (fun todo => id todo =? v) l = Some e -> id e = v.
Proof.
  intros H. apply find_some in H. destruct H as [_ H]. now apply String.eqb_eq.
Qed.

Lemma find_id_absent (l : list TodoEntity) v :
  find (fun todo => id todo =? v) l = None <-> ~ In v (map id l).
Proof.
  induction l as [|x l IH]; simpl.
  - tauto.
  - destruct (String.eqb_spec (id x) v) as [Heq|Hne].
    + split; [discriminate|]. intros H. elim H. now left.
    + rewrite IH. tauto.
Qed.

Lemma find_id_middle (l1 l2 : list TodoEntity) v e :
  ~ In v (map id l1) -> id e = v ->
  find (fun todo => id todo =? v) (l1 ++ e :: l2) = Some e.
Proof.
  intros Hn He. induction l1 as [|x l1 IH]; simpl.
  - now rewrite He, String.eqb_refl.
  - simpl in Hn. destruct (String.eqb_spec (id x) v) as [Heq|Hne]; [tauto|].
    apply IH. tauto.
Qed.

Lemma find_id_skip (l1 l2 : list TodoEntity) v e :
  id e <> v ->
  find (fun todo => id todo =? v) (l1 ++ e :: l2)
  = find (fun todo => id todo =? v) (l1 ++ l2).
Proof.
  intros He. induction l1 as [|x l1 IH]; simpl.
  - apply String.eqb_neq in He. now rewrite He.
  - now rewrite IH.
Qed.

(** The split of a list at the first task of an id. *)
Lemma find_id_split (l : list TodoEntity) v e :
  find (fun todo => id todo =? v) l = Some e ->
  exists l1 l2, l = l1 ++ e :: l2 /\ ~ In v (map id l1) /\ id e = v.
Proof.
  induction l as [|x l IH]; simpl; [discriminate|].
  destruct (String.eqb_spec (id x) v) as [Heq|Hne].
  - intros [= ->]. exists [], l. simpl. tauto.
  - intros H. destruct (IH H) as (l1 & l2 & -> & Hn & He).
    exists (x :: l1), l2. simpl. tauto.
Qed.

Lemma list_remove_middle (l1 l2 : list TodoEntity) e :
  ~ In (id e) (map id l1) ->
  list_remove TodoEntity_eqb e (l1 ++ e :: l2) = Ok (l1 ++ l2).
Proof.
  intros Hn. induction l1 as [|x l1 IH]; simpl.
  - now rewrite TodoEntity_eqb_refl.
  - simpl in Hn. rewrite TodoEntity_eqb_id by tauto.
    rewrite IH by tauto. reflexivity.
Qed.

Lemma replace_first_middle (l1 l2 : list TodoEntity) v e e' :
  ~ In v (map id l1) -> id e = v ->
  replace_first (fun todo => id todo =? v) e' (l1 ++ e :: l2) = l1 ++ e' :: l2.
Proof.
  intros Hn He. induction l1 as [|x l1 IH]; simpl.
  - now rewrite He, String.eqb_refl.
  - simpl in Hn. destruct (String.eqb_spec (id x) v) as [Heq|Hne]; [tauto|].
    rewrite IH by tauto. reflexivity.
Qed.

Lemma find_id_snoc (l : list TodoEntity) v e :
  find (fun todo => id todo =? v) (l ++ [e])
  = match find (fun todo => id todo =? v) l with
    | Some x => Some x
    | None => if id e =? v then Some e else None
    end.
Proof.
  induction l as [|x l IH]; simpl; [reflexivity|].
  destruct (id x =? v); [reflexivity|exact IH].
Qed.

Lemma NoDup_snoc {A} (l : list A) x : NoDup l -> ~ In x l -> NoDup (l ++ [x]).
Proof.
  intros Hl Hx. apply NoDup_app; [exact Hl|repeat constructor; tauto|].
  intros a Ha [<-|[]]. contradiction.
Qed.

(** X9. Creating a task in the mock variant: the task goes to the end of the
    list under the generated id (the id of the request is not used) and is
    returned with that id; when the generated id is new, a lookup by it gives
    the created task and the lookups by any other id are as before. *)
Theorem mock_create_then_lookup (self : MockTodoService.t) (b : TodoBoundary)
    (uuid : string) :
  boundary_ok b -> ~ In uuid (map id self) ->
  let created := mkTodoBoundary uuid (b_title b) (b_description b) (b_status b)
                   (b_priority b) in
  let result := MockTodoServiceWrites.create_todo self b uuid in
  fst result = Ok created
  /\ snd result = self ++ [TodoEntity_from_boundary uuid b]
  /\ MockTodoService.get_todo_by_id (snd result) uuid [] = Ok (Some created)
  /\ (forall v, v <> uuid ->
        MockTodoService.get_todo_by_id (snd result) v []
        = MockTodoService.get_todo_by_id self v []).
Proof.
  intros Hb Hfresh created result.
  assert (Hfe : from_entity (TodoEntity_from_boundary uuid b) = Ok created)
    by (now apply from_entity_ok).
  repeat split.
  - exact Hfe.
  - simpl. unfold MockTodoService.get_todo_by_id. rewrite find_id_snoc.
    apply find_id_absent in Hfresh. rewrite Hfresh. simpl.
    now rewrite String.eqb_refl, Hfe.
  - intros v Hv. simpl. unfold MockTodoService.get_todo_by_id.
    rewrite find_id_snoc. destruct (find _ self); [reflexivity|].
    simpl. apply not_eq_sym, String.eqb_neq in Hv. now rewrite Hv.
Qed.

Lemma mock_create_then_lookup_witness :
  MockTodoService.get_todo_by_id
    (snd (MockTodoServiceWrites.create_todo store_b_a
            (mkTodoBoundary "ignored" "c" "third" "Pending" HIGH) "3")) "3" []
  = Ok (Some (mkTodoBoundary "3" "c" "third" "Pending" HIGH)).
Proof.
  apply (mock_create_then_lookup store_b_a
           (mkTodoBoundary "ignored" "c" "third" "Pending" HIGH) "3").
  - discriminate.
  - simpl. intuition discriminate.
Defined.

(** X10. Creating a task in the durable variant keeps the ids of the table
    unique: a generated id that is in the table already is refused with an
    [IntegrityError] and the table stays as it was; otherwise the row is
    added at the end and a lookup by its id gives the created task. *)
Theorem durable_create_keeps_ids_unique (self : TodoService.t) (b : TodoBoundary)
    (uuid : string) (args : list Pagination) :
  NoDup (map id self) -> boundary_ok b ->
  let created := mkTodoBoundary uuid (b_title b) (b_description b) (b_status b)
                   (b_priority b) in
  let result := TodoServiceWrites.create_todo self b uuid in
  NoDup (map id (snd result))
  /\ (In uuid (map id self) ->
      snd result = self /\ exists orig, fst result = Raise (IntegrityError orig))
  /\ (~ In uuid (map id self) ->
      result = (Ok created, self ++ [TodoEntity_from_boundary uuid b])
      /\ TodoService.get_todo_by_id (snd result) uuid args = Ok (Some created)).
Proof.
  intros Hnd Hb created result. subst result.
  unfold TodoServiceWrites.create_todo. simpl id.
  destruct (existsb _ self) eqn:Hex.
  - apply existsb_exists in Hex. destruct Hex as (x & Hx & Hid).
    apply String.eqb_eq in Hid. simpl.
    split; [exact Hnd|]. split.
    + intros _. split; [reflexivity|eauto].
    + intros Hn. elim Hn. rewrite <- Hid. now apply in_map.
  - assert (Hfresh : ~ In uuid (map id self)).
    { intros Hin. apply in_map_iff in Hin. destruct Hin as (x & Hid & Hx).
      assert (Ht : existsb (fun row => id row =? uuid) self = true).
      { apply existsb_exists. exists x. split; [exact Hx|now apply String.eqb_eq]. }
      congruence. }
    simpl. split; [|split].
    + rewrite map_app. simpl. now apply NoDup_snoc.
    + tauto.
    + intros _. rewrite from_entity_ok by exact Hb. split; [reflexivity|].
      unfold TodoService.get_todo_by_id.
      rewrite SearchFacts.filter_unique_id.
      * rewrite find_id_snoc. apply find_id_absent in Hfresh. rewrite Hfresh.
        simpl. rewrite String.eqb_refl. simpl.
        now rewrite from_entity_ok by exact Hb.
      * rewrite map_app. simpl. now apply NoDup_snoc.
Qed.

Lemma durable_create_keeps_ids_unique_witness :
  TodoService.get_todo_by_id
    (snd (TodoServiceWrites.create_todo store_b_a
            (mkTodoBoundary "ignored" "c" "third" "Pending" HIGH) "3")) "3" []
  = Ok (Some (mkTodoBoundary "3" "c" "third" "Pending" HIGH)).
Proof.
  apply (durable_create_keeps_ids_unique store_b_a
           (mkTodoBoundary "ignored" "c" "third" "Pending" HIGH) "3" []).
  - repeat constructor; simpl; intuition discriminate.
  - discriminate.
  - simpl. intuition discriminate.
Defined.

Lemma mock_delete_found (self : MockTodoService.t) todo_id e :
  find (fun todo => id todo =? todo_id) self = Some e ->
  exists l1 l2,
    self = l1 ++ e :: l2 /\ ~ In todo_id (map id l1) /\ id e = todo_id
    /\ MockTodoServiceWrites.delete self todo_id = (Ok true, l1 ++ l2).
Proof.
  intros Hf. destruct (find_id_split _ _ _ Hf) as (l1 & l2 & Hs & Hn & He).
  exists l1, l2. repeat split; try assumption.
  unfold MockTodoServiceWrites.delete. rewrite Hf. rewrite Hs at 1.
  rewrite list_remove_middle; [reflexivity|]. now rewrite He.
Qed.

(** X11. Deleting in the mock variant: when no task has the id, the answer is
    [False] and the list is untouched; otherwise the answer is [True] and
    exactly the first task of that id leaves the list, the tasks before and
    after it staying in their order. [list.remove] never fails here. *)
Theorem mock_delete_removes_first_match (self : MockTodoService.t) (todo_id : string) :
  match find (fun todo => id todo =? todo_id) self with
  | None => MockTodoServiceWrites.delete self todo_id = (Ok false, self)
  | Some e =>
      exists l1 l2,
        self = l1 ++ e :: l2 /\ ~ In todo_id (map id l1)
        /\ MockTodoServiceWrites.delete self todo_id = (Ok true, l1 ++ l2)
  end.
Proof.
  destruct (find _ self) as [e|] eqn:Hf.
  - destruct (mock_delete_found self todo_id e Hf) as (l1 & l2 & Hs & Hn & _ & Hd).
    now exists l1, l2.
  - unfold MockTodoServiceWrites.delete. now rewrite Hf.
Qed.

(** X12. With unique ids a deletion is final in the mock variant: after
    [delete] no task has the id, a lookup by it gives [None], a second
    [delete] answers [False] and changes nothing, and the ids are still
    unique. *)
Theorem mock_delete_is_final (self : MockTodoService.t) (todo_id : string) :
  NoDup (map id self) ->
  let self' := snd (MockTodoServiceWrites.delete self todo_id) in
  ~ In todo_id (map id self')
  /\ NoDup (map id self')
  /\ MockTodoService.get_todo_by_id self' todo_id [] = Ok None
  /\ MockTodoServiceWrites.delete self' todo_id = (Ok false, self').
Proof.
  intros Hnd self'.
  assert (Hgone : ~ In todo_id (map id self') /\ NoDup (map id self')).
  { subst self'. destruct (find (fun todo => id todo =? todo_id) self) as [e|] eqn:Hf.
    - destruct (mock_delete_found self todo_id e Hf) as (l1 & l2 & Hs & Hn & He & Hd).
      rewrite Hd. simpl. rewrite Hs, map_app in Hnd. simpl in Hnd.
      split.
      + apply NoDup_remove_2 in Hnd. now rewrite map_app, <- He.
      + apply NoDup_remove_1 in Hnd. now rewrite map_app.
    - unfold MockTodoServiceWrites.delete. rewrite Hf. simpl.
      split; [now apply find_id_absent|exact Hnd]. }
  destruct Hgone as [Hgone Hnd'].
  apply find_id_absent in Hgone.
  repeat split.
  - now apply find_id_absent.
  - exact Hnd'.
  - unfold MockTodoService.get_todo_by_id. now rewrite Hgone.
  - unfold MockTodoServiceWrites.delete. now rewrite Hgone.
Qed.

Lemma mock_delete_is_final_witness :
  MockTodoServiceWrites.delete (snd (MockTodoServiceWrites.delete store_b_a "1")) "1"
  = (Ok false, snd (MockTodoServiceWrites.delete store_b_a "1")).
Proof.
  apply (mock_delete_is_final store_b_a "1").
  repeat constructor; simpl; intuition discriminate.
Defined.

Lemma one_or_none_middle {A} (p : A -> bool) l1 l2 e :
  p e = true ->
  Query.one_or_none (filter p (l1 ++ e :: l2)) = Ok (Some e) ->
  filter p l1 = [] /\ filter p l2 = [].
Proof.
  intros Hp. rewrite filter_app. simpl. rewrite Hp.
  destruct (filter p l1) as [|x [|y xs]]; destruct (filter p l2); simpl;
    try discriminate; auto.
Qed.

(** X13. An update followed by a lookup, in both variants: when a task of the
    id is stored (in the durable variant, exactly one) and the payload has a
    title, [update_todo] returns the task with the stored id and the fields of
    the payload, and a lookup by the id then returns the same. *)
Theorem update_then_lookup (self : list TodoEntity) (todo_id : string)
    (b : TodoBoundary) (e : TodoEntity) (args : list Pagination) :
  boundary_ok b ->
  find (fun todo => id todo =? todo_id) self = Some e ->
  let answer := mkTodoBoundary todo_id (b_title b) (b_description b) (b_status b)
                  (b_priority b) in
  fst (MockTodoService.update_todo self todo_id b) = Ok (Some answer)
  /\ MockTodoService.get_todo_by_id (snd (MockTodoService.update_todo self todo_id b))
       todo_id [] = Ok (Some answer)
  /\ (Query.one_or_none (filter (fun row => id row =? todo_id) self) = Ok (Some e) ->
      fst (TodoService.update_todo self todo_id b) = Ok (Some answer)
      /\ TodoService.get_todo_by_id (snd (TodoService.update_todo self todo_id b))
           todo_id args = Ok (Some answer)).
Proof.
  intros Hb Hf answer.
  destruct (find_id_split _ _ _ Hf) as (l1 & l2 & Hs & Hn & He).
  assert (Hfe : from_entity (updated e b) = Ok answer).
  { rewrite from_entity_ok by exact Hb. unfold to_boundary, updated. simpl.
    now rewrite He. }
  assert (Hm : MockTodoService.update_todo self todo_id b
               = (Ok (Some answer), l1 ++ updated e b :: l2)).
  { unfold MockTodoService.update_todo. rewrite Hf, UpdateFacts.update_model_dump, Hfe. simpl.
    f_equal. rewrite Hs. now apply replace_first_middle. }
  assert (Hfind : find (fun todo => id todo =? todo_id) (l1 ++ updated e b :: l2)
                  = Some (updated e b)).
  { now apply find_id_middle. }
  split; [now rewrite Hm|]. split.
  - rewrite Hm. simpl. unfold MockTodoService.get_todo_by_id.
    now rewrite Hfind, Hfe.
  - intros Ho.
    assert (Hd : TodoService.update_todo self todo_id b
                 = (Ok (Some answer), l1 ++ updated e b :: l2)).
    { unfold TodoService.update_todo. rewrite Ho, UpdateFacts.update_model_dump, Hfe. simpl.
      f_equal. rewrite Hs. now apply replace_first_middle. }
    rewrite Hd. simpl. split; [reflexivity|].
    unfold TodoService.get_todo_by_id.
    assert (Hfilter : filter (fun row => id row =? todo_id) (l1 ++ updated e b :: l2)
                      = [updated e b]).
    { rewrite Hs in Ho.
      destruct (one_or_none_middle (fun row => id row =? todo_id) l1 l2 e) as [H1 H2];
        [now apply String.eqb_eq|exact Ho|].
      assert (Hp : (id (updated e b) =? todo_id) = true)
        by (apply String.eqb_eq; exact He).
      rewrite filter_app. cbn [filter]. now rewrite Hp, H1, H2. }
    rewrite Hfilter. simpl. now rewrite Hfe.
Qed.

Lemma update_then_lookup_witness :
  MockTodoService.get_todo_by_id
    (snd (MockTodoService.update_todo store_b_a "2"
            (mkTodoBoundary "other" "z" "new" "Done" HIGH))) "2" []
  = Ok (Some (mkTodoBoundary "2" "z" "new" "Done" HIGH)).
Proof.
  destruct (update_then_lookup store_b_a "2"
              (mkTodoBoundary "other" "z" "new" "Done" HIGH)
              (task "2" "a" EmptyString LOW) []) as (_ & H & _).
  - discriminate.
  - reflexivity.
  - exact H.
Defined.

(** X14. Updating twice with the same payload leaves the store as updating
    once does, in the mock variant. *)
Theorem mock_update_twice_is_update_once (self : MockTodoService.t)
    (todo_id : string) (b : TodoBoundary) :
  snd (MockTodoService.update_todo
         (snd (MockTodoService.update_todo self todo_id b)) todo_id b)
  = snd (MockTodoService.update_todo self todo_id b).
Proof.
  destruct (find (fun todo => id todo =? todo_id) self) as [e|] eqn:Hf.
  - destruct (find_id_split _ _ _ Hf) as (l1 & l2 & Hs & Hn & He).
    assert (Hm : snd (MockTodoService.update_todo self todo_id b)
                 = l1 ++ updated e b :: l2).
    { unfold MockTodoService.update_todo. rewrite Hf, UpdateFacts.update_model_dump. simpl.
      rewrite Hs. now apply replace_first_middle. }
    rewrite Hm. unfold MockTodoService.update_todo at 1.
    rewrite (find_id_middle l1 l2 todo_id (updated e b) Hn He).
    rewrite UpdateFacts.update_model_dump. simpl.
    now apply replace_first_middle.
  - unfold MockTodoService.update_todo. rewrite Hf. simpl. now rewrite Hf.
Qed.

(** X24. With unique ids the two variants of [update_todo] do the same: the
    same answer and the same store afterwards, for every id and payload. *)
Theorem update_todo_variants_agree (self : list TodoEntity) (todo_id : string)
    (b : TodoBoundary) :
  NoDup (map id self) ->
  TodoService.update_todo self todo_id b = MockTodoService.update_todo self todo_id b.
Proof.
  intros Hnd. unfold TodoService.update_todo, MockTodoService.update_todo.
  rewrite SearchFacts.filter_unique_id by assumption.
  destruct (find _ self); reflexivity.
Qed.

Lemma update_todo_variants_agree_witness :
  TodoService.update_todo store_b_a "2" (mkTodoBoundary "other" "z" "new" "Done" HIGH)
  = MockTodoService.update_todo store_b_a "2" (mkTodoBoundary "other" "z" "new" "Done" HIGH).
Proof.
  apply (update_todo_variants_agree store_b_a "2"
           (mkTodoBoundary "other" "z" "new" "Done" HIGH)).
  repeat constructor; simpl; intuition discriminate.
Defined.

Lemma replace_first_store_ok (p : TodoEntity -> bool) e' l :
  title e' <> EmptyString -> store_ok l -> store_ok (replace_first p e' l).
Proof.
  intros He. induction 1 as [|x l Hx Hl IH]; simpl; [constructor|].
  destruct (p x); constructor; assumption.
Qed.

Lemma store_ok_snoc l e : store_ok l -> title e <> EmptyString -> store_ok (l ++ [e]).
Proof.
  intros Hl He. unfold store_ok. rewrite Forall_app. split; [exact Hl|].
  now repeat constructor.
Qed.

(** X15. The writes keep every stored title non-empty when the payload has a
    title: [create_todo] and [update_todo] of both variants and [delete] of the
    mock variant. So [TodoBoundary.from_entity] accepts every task of the store
    after any of them. *)
Theorem writes_keep_titles_valid (self : list TodoEntity) (b : TodoBoundary)
    (todo_id uuid : string) :
  store_ok self -> boundary_ok b ->
  let after :=
    [ snd (MockTodoServiceWrites.create_todo self b uuid);
      snd (MockTodoService.update_todo self todo_id b);
      snd (MockTodoServiceWrites.delete self todo_id);
      snd (TodoServiceWrites.create_todo self b uuid);
      snd (TodoService.update_todo self todo_id b) ] in
  Forall store_ok after
  /\ (forall store e, In store after -> In e store ->
        from_entity e = Ok (to_boundary e)).
Proof.
  intros Hok Hb after.
  assert (Ha : Forall store_ok after).
  { subst after. repeat constructor.
    - simpl. now apply store_ok_snoc.
    - unfold MockTodoService.update_todo.
      destruct (find _ self); simpl; [|exact Hok].
      now apply replace_first_store_ok.
    - destruct (find (fun todo => id todo =? todo_id) self) as [e|] eqn:Hf.
      + destruct (mock_delete_found self todo_id e Hf) as (l1 & l2 & Hs & _ & _ & Hd).
        rewrite Hd. simpl.
        unfold store_ok in *. rewrite Hs, Forall_app in Hok.
        rewrite Forall_app. destruct Hok as [H1 H2]. inversion H2. tauto.
      + unfold MockTodoServiceWrites.delete. now rewrite Hf.
    - unfold TodoServiceWrites.create_todo.
      destruct (existsb _ self); simpl; [exact Hok|].
      now apply store_ok_snoc.
    - unfold TodoService.update_todo.
      destruct (Query.one_or_none _) as [[e|]|]; simpl; try exact Hok.
      now apply replace_first_store_ok. }
  split; [exact Ha|].
  intros store e Hs He. apply from_entity_ok.
  rewrite Forall_forall in Ha. specialize (Ha store Hs).
  unfold store_ok in Ha. rewrite Forall_forall in Ha. now apply Ha.
Qed.

Lemma writes_keep_titles_valid_witness :
  Forall store_ok
    [ snd (MockTodoServiceWrites.create_todo store_b_a
             (mkTodoBoundary "1" "z" "new" "Done" HIGH) "3");
      snd (MockTodoService.update_todo store_b_a "1"
             (mkTodoBoundary "1" "z" "new" "Done" HIGH));
      snd (MockTodoServiceWrites.delete store_b_a "1");
      snd (TodoServiceWrites.create_todo store_b_a
             (mkTodoBoundary "1" "z" "new" "Done" HIGH) "3");
      snd (TodoService.update_todo store_b_a "1"
             (mkTodoBoundary "1" "z" "new" "Done" HIGH)) ].
Proof.
  destruct (writes_keep_titles_valid store_b_a
              (mkTodoBoundary "1" "z" "new" "Done" HIGH) "1" "3") as (H & _).
  - repeat constructor; discriminate.
  - discriminate.
  - exact H.
Defined.

(** X16. The update and delete routes over the mock variant: for an id no
    task has, both raise a 404 that names the id and leave the store as it
    was; for an id a task has, the delete route succeeds and the update route,
    given a payload with a title, answers with the task under its stored
    id. *)
Theorem mock_routes_404_exactly_for_absent_id (self : MockTodoService.t)
    (todo_id : string) (b : TodoBoundary) :
  match find (fun todo => id todo =? todo_id) self with
  | None =>
      TodoController.update_task todo_id b (mock_store self)
      = (Raise (HTTPException 404
                  ("Task with ID '" ++ todo_id ++ "' not found. "
                     ++ "Please ensure the task exists before attempting an update.")%string),
         mock_store self)
      /\ TodoControllerWrites.delete_task MockTodoServiceWrites.delete todo_id self
         = (Raise (HTTPException 404
                     ("Task with ID '" ++ todo_id ++ "' not found. "
                        ++ "Unable to delete a non-existing task.")%string),
            self)
  | Some e =>
      fst (TodoControllerWrites.delete_task MockTodoServiceWrites.delete todo_id self) = Ok tt
      /\ (boundary_ok b ->
          fst (TodoController.update_task todo_id b (mock_store self))
          = Ok (mkTodoBoundary todo_id (b_title b) (b_description b) (b_status b)
                  (b_priority b)))
  end.
Proof.
  destruct (find (fun todo => id todo =? todo_id) self) as [e|] eqn:Hf.
  - split.
    + destruct (mock_delete_found self todo_id e Hf) as (l1 & l2 & _ & _ & _ & Hd).
      unfold TodoControllerWrites.delete_task. now rewrite Hd.
    + intros Hb. unfold TodoController.update_task. simpl.
      unfold MockTodoService.update_todo.
      rewrite Hf, UpdateFacts.update_model_dump, from_entity_ok by exact Hb.
      simpl. unfold to_boundary, updated. simpl.
      now rewrite (find_id_spec _ _ _ Hf).
  - split.
    + unfold TodoController.update_task. simpl.
      unfold MockTodoService.update_todo. now rewrite Hf.
    + unfold TodoControllerWrites.delete_task, MockTodoServiceWrites.delete.
      now rewrite Hf.
Qed.

(* ===================================================================== *)
(** * Further properties of registration and login                        *)
(* ===================================================================== *)

Lemma users_unique_snoc rows row :
  users_unique rows ->
  ~ In (UserEntity.id row) (map UserEntity.id rows) ->
  ~ In (UserEntity.username row) (map UserEntity.username rows) ->
  ~ In (UserEntity.email row) (map UserEntity.email rows) ->
  ~ In (UserEntity.hashed_password row) (map UserEntity.hashed_password rows) ->
  users_unique (rows ++ [row]).
Proof.
  intros (H1 & H2 & H3 & H4) N1 N2 N3 N4. unfold users_unique.
  rewrite !map_app. simpl. repeat split; now apply NoDup_snoc.
Qed.

(** X17. A login that returns a token has verified a stored user: a row with
    the username of the request is in the table, [verify] accepted the
    password against its digest, and the token is the encoding of the subject
    (the stored username) and of an expiry 30 minutes after the clock
    reading, under the configured key and algorithm. *)
Theorem login_token_only_for_verified_user (crypto_ctx : CryptContext) (jwt : Jose)
    (config : Config) (self : UserService.t) (user_login : UserLogin.t)
    (now : datetime) (token : string) :
  UserService.login crypto_ctx jwt config self user_login now = Ok (Some token) ->
  exists user,
    In user self
    /\ UserEntity.username user = UserLogin.username user_login
    /\ verify crypto_ctx (UserLogin.password user_login)
         (UserEntity.hashed_password user) = true
    /\ token = jwt_encode jwt
                 [ ("sub", claim_str (UserEntity.username user));
                   ("exp", claim_datetime (now + 30 * 60 * 1000000)%Z) ]
                 (JWT_SECRET_KEY config) (JWT_ALGORITHM config).
Proof.
  unfold UserService.login.
  destruct (Query.one_or_none _) as [[user|]|] eqn:Ho; simpl; try discriminate.
  destruct (verify crypto_ctx _ _) eqn:Hv; simpl; [|discriminate].
  intros [= <-]. exists user.
  apply one_or_none_find, find_some in Ho. destruct Ho as [Hin Hu].
  apply String.eqb_eq in Hu. repeat split; assumption.
Qed.

Lemma login_token_only_for_verified_user_witness :
  exists user,
    In user [alice]
    /\ UserEntity.username user = "alice"
    /\ verify example_crypto_ctx "wonderland" (UserEntity.hashed_password user) = true
    /\ "HS256.alice.secret"
       = jwt_encode example_jose
           [ ("sub", claim_str (UserEntity.username user));
             ("exp", claim_datetime (0 + 30 * 60 * 1000000)%Z) ]
           (JWT_SECRET_KEY example_config) (JWT_ALGORITHM example_config).
Proof.
  apply (login_token_only_for_verified_user example_crypto_ctx example_jose
           example_config [alice] (UserLogin.mk "alice" "wonderland") 0%Z).
  reflexivity.
Defined.

(** X18. [register] keeps the unique constraints of the table: when ids,
    usernames, emails and digests are each without repetition before the
    call, they are so after it, whether the row was added or refused. *)
Theorem register_keeps_users_unique (crypto_ctx : CryptContext)
    (email_ok : string -> bool) (self : UserService.t) (b : UserBoundary.t)
    (salt uuid : string) :
  users_unique self ->
  users_unique (snd (UserService.register crypto_ctx email_ok self b salt uuid)).
Proof.
  intros Hu. rewrite register_unfold.
  destruct (commit_add_cases self (registered_row crypto_ctx b salt uuid))
    as [(orig & -> & _)|(-> & N1 & N2 & N3 & N4)]; simpl; [exact Hu|].
  now apply users_unique_snoc.
Qed.

Lemma register_keeps_users_unique_witness :
  users_unique (snd (UserService.register example_crypto_ctx example_email_ok
                       [alice] bob "s" "u2")).
Proof.
  apply (register_keeps_users_unique example_crypto_ctx example_email_ok [alice] bob "s" "u2").
  repeat split; repeat constructor; simpl; tauto.
Defined.

(** X19. A registration whose username or email is in the table already is
    refused: the service raises [IntegrityError], the route turns it into a 400
    with one of its four details, and the table stays as it was. *)
Theorem register_refuses_taken_username_or_email (crypto_ctx : CryptContext)
    (email_ok : string -> bool) (self : UserService.t) (b : UserBoundary.t)
    (salt uuid : string) :
  In (UserBoundary.username b) (map UserEntity.username self)
  \/ In (UserBoundary.email b) (map UserEntity.email self) ->
  exists orig,
    UserService.register crypto_ctx email_ok self b salt uuid
    = (Raise (IntegrityError orig), self)
    /\ UserControllerRegister.register crypto_ctx email_ok b self salt uuid
       = (Raise (HTTPException 400 (UserControllerRegister.integrity_detail orig)), self).
Proof.
  intros Htaken. unfold UserControllerRegister.register. rewrite register_unfold.
  destruct (commit_add_cases self (registered_row crypto_ctx b salt uuid))
    as [(orig & -> & _)|(_ & _ & N2 & N3 & _)].
  - exists orig. split; reflexivity.
  - simpl in N2, N3. tauto.
Qed.

Lemma register_refuses_taken_username_or_email_witness :
  exists orig,
    UserService.register example_crypto_ctx example_email_ok [alice]
      (UserBoundary.mk EmptyString "alice" "other@example.org" "Al" "A" "pw") "s" "u2"
    = (Raise (IntegrityError orig), [alice])
    /\ UserControllerRegister.register example_crypto_ctx example_email_ok
         (UserBoundary.mk EmptyString "alice" "other@example.org" "Al" "A" "pw")
         [alice] "s" "u2"
       = (Raise (HTTPException 400 (UserControllerRegister.integrity_detail orig)), [alice]).
Proof.
  apply (register_refuses_taken_username_or_email example_crypto_ctx example_email_ok
           [alice] (UserBoundary.mk EmptyString "alice" "other@example.org" "Al" "A" "pw")
           "s" "u2").
  left. simpl. tauto.
Defined.

(** X20. Registration followed by login: when the table has unique usernames,
    the id, username, email and digest of the registration are new, and the
    hasher verifies a password against its own digest, the registered user
    logs in with the registered password and gets the token for their
    username, at any clock reading. *)
Theorem register_then_login (crypto_ctx : CryptContext) (jwt : Jose) (config : Config)
    (email_ok : string -> bool) (self : UserService.t) (b : UserBoundary.t)
    (salt uuid : string) (now : datetime) :
  users_unique self ->
  UserService.commit_add self (registered_row crypto_ctx b salt uuid)
  = Ok (self ++ [registered_row crypto_ctx b salt uuid]) ->
  verify crypto_ctx (UserBoundary.password b)
    (hash crypto_ctx salt (UserBoundary.password b)) = true ->
  UserService.login crypto_ctx jwt config
    (snd (UserService.register crypto_ctx email_ok self b salt uuid))
    (UserLogin.mk (UserBoundary.username b) (UserBoundary.password b)) now
  = Ok (Some (TokenGenerator.create_access_token jwt config
                [("sub", claim_str (UserBoundary.username b))] 30 now)).
Proof.
  intros Hu Hc Hv. rewrite register_unfold, Hc. simpl snd.
  destruct (commit_add_cases self (registered_row crypto_ctx b salt uuid))
    as [(orig & Hr & _)|(_ & N1 & N2 & N3 & N4)]; [congruence|].
  pose proof (users_unique_snoc self _ Hu N1 N2 N3 N4) as (_ & Hnd & _).
  apply (login_right_password crypto_ctx jwt config
           (self ++ [registered_row crypto_ctx b salt uuid])
           (registered_row crypto_ctx b salt uuid)).
  - exact Hnd.
  - apply in_or_app. right. now left.
  - exact Hv.
Qed.

Lemma register_then_login_witness :
  UserService.login example_crypto_ctx example_jose example_config
    (snd (UserService.register example_crypto_ctx example_email_ok [alice] bob "s" "u2"))
    (UserLogin.mk "bob" "builder") 5%Z
  = Ok (Some (TokenGenerator.create_access_token example_jose example_config
                [("sub", claim_str "bob")] 30 5%Z)).
Proof.
  apply (register_then_login example_crypto_ctx example_jose example_config
           example_email_ok [alice] bob "s" "u2" 5%Z).
  - repeat split; repeat constructor; simpl; tauto.
  - reflexivity.
  - reflexivity.
Defined.

(** X21. [register] commits the row before it builds the view: when the
    commit goes through and the stored email does not pass the address check
    of the view (the default of [UserBoundary.email] is the empty string,
    which [UserBoundary] does not check), the call raises [ValidationError],
    the route lets it pass, and the row is in the table all the same. *)
Theorem register_commits_before_view_validation (crypto_ctx : CryptContext)
    (email_ok : string -> bool) (self : UserService.t) (b : UserBoundary.t)
    (salt uuid : string) :
  (3 <= String.length (UserBoundary.username b))%nat ->
  email_ok (UserBoundary.email b) = false ->
  UserService.commit_add self (registered_row crypto_ctx b salt uuid)
  = Ok (self ++ [registered_row crypto_ctx b salt uuid]) ->
  exists msg,
    UserService.register crypto_ctx email_ok self b salt uuid
    = (Raise (ValidationError msg), self ++ [registered_row crypto_ctx b salt uuid])
    /\ UserControllerRegister.register crypto_ctx email_ok b self salt uuid
       = (Raise (ValidationError msg), self ++ [registered_row crypto_ctx b salt uuid]).
Proof.
  intros Hu He Hc. eexists.
  assert (Hr : UserService.register crypto_ctx email_ok self b salt uuid
               = (Raise (ValidationError "email: value is not a valid email address"),
                  self ++ [registered_row crypto_ctx b salt uuid])).
  { rewrite register_unfold, Hc. unfold UserFilteredBoundary.from_entity. simpl.
    destruct (Nat.ltb_spec (String.length (UserBoundary.username b)) 3); [lia|].
    now rewrite He. }
  split; [exact Hr|].
  unfold UserControllerRegister.register. now rewrite Hr.
Qed.

Lemma register_commits_before_view_validation_witness :
  exists msg,
    UserService.register example_crypto_ctx example_email_ok [alice]
      (UserBoundary.mk EmptyString "carol" EmptyString "Carol" "C" "pw") "s" "u3"
    = (Raise (ValidationError msg),
       [alice] ++ [registered_row example_crypto_ctx
                     (UserBoundary.mk EmptyString "carol" EmptyString "Carol" "C" "pw")
                     "s" "u3"])
    /\ UserControllerRegister.register example_crypto_ctx example_email_ok
         (UserBoundary.mk EmptyString "carol" EmptyString "Carol" "C" "pw") [alice] "s" "u3"
       = (Raise (ValidationError msg),
          [alice] ++ [registered_row example_crypto_ctx
                        (UserBoundary.mk EmptyString "carol" EmptyString "Carol" "C" "pw")
                        "s" "u3"]).
Proof.
  apply (register_commits_before_view_validation example_crypto_ctx example_email_ok
           [alice] (UserBoundary.mk EmptyString "carol" EmptyString "Carol" "C" "pw")
           "s" "u3").
  - simpl. lia.
  - reflexivity.
  - reflexivity.
Defined.

(** X22. The outcomes of the register route for a request [UserBoundary]
    accepts, whose values fit the columns of the table. When the id, username,
    email or digest is in the table already: a 400, the table as it was.
    Otherwise the row is at the end of the table, and the route returns the
    view of the new user, without password, when the email passes the address
    check, and lets a [ValidationError] pass when it does not (as for the
    default, the empty string). An [IntegrityError] never leaves the route. *)
Theorem register_route_outcomes (crypto_ctx : CryptContext)
    (email_ok : string -> bool) (self : UserService.t) (b : UserBoundary.t)
    (salt uuid : string) :
  UserBoundary_checked b ->
  fits_columns (registered_row crypto_ctx b salt uuid) ->
  let row := registered_row crypto_ctx b salt uuid in
  let route := UserControllerRegister.register crypto_ctx email_ok b self salt uuid in
  (taken self row ->
   exists orig,
     route = (Raise (HTTPException 400 (UserControllerRegister.integrity_detail orig)),
              self))
  /\ (~ taken self row -> email_ok (UserBoundary.email b) = true ->
      route = (Ok (UserFilteredBoundary.mk uuid (UserBoundary.username b)
                     (UserBoundary.email b) (UserBoundary.first_name b)
                     (UserBoundary.last_name b) None),
               self ++ [row]))
  /\ (~ taken self row -> email_ok (UserBoundary.email b) = false ->
      exists msg, route = (Raise (ValidationError msg), self ++ [row]))
  /\ (forall orig s', route <> (Raise (IntegrityError orig), s')).
Proof.
  intros (Hu & Hf & Hl) _ row route. subst route.
  unfold UserControllerRegister.register. rewrite register_unfold. fold row.
  assert (Hacc : view_accepts email_ok b = email_ok (UserBoundary.email b)).
  { unfold view_accepts.
    destruct (Nat.ltb_spec (String.length (UserBoundary.username b)) 3); [lia|].
    destruct (Nat.ltb_spec (String.length (UserBoundary.first_name b)) 1); [lia|].
    destruct (Nat.ltb_spec (String.length (UserBoundary.last_name b)) 1); [lia|].
    simpl. now rewrite !andb_true_r. }
  destruct (view_accepts_from_entity crypto_ctx email_ok b salt uuid) as [Hok Hrej].
  fold row in Hok, Hrej. rewrite Hacc in Hok, Hrej.
  destruct (commit_add_cases self row)
    as [(orig & Hc & Ht)|(Hc & N1 & N2 & N3 & N4)]; rewrite Hc.
  - split; [intros _; now exists orig|].
    split; [intros Hn; elim Hn; exact Ht|].
    split; [intros Hn; elim Hn; exact Ht|].
    intros orig' s'. discriminate.
  - split; [intros Ht; unfold taken in Ht; tauto|].
    split; [intros _ He; now rewrite (Hok He)|].
    split.
    + intros _ He. destruct (Hrej He) as [msg Hm]. exists msg. now rewrite Hm.
    + intros orig' s'. destruct (email_ok (UserBoundary.email b)).
      * rewrite (Hok eq_refl). discriminate.
      * destruct (Hrej eq_refl) as [msg Hm]. rewrite Hm. discriminate.
Qed.

Lemma register_route_outcomes_witness :
  UserControllerRegister.register example_crypto_ctx example_email_ok bob [alice] "s" "u2"
  = (Ok (UserFilteredBoundary.mk "u2" "bob" "bob@example.org" "Bob" "B" None),
     [alice] ++ [registered_row example_crypto_ctx bob "s" "u2"]).
Proof.
  destruct (register_route_outcomes example_crypto_ctx example_email_ok [alice] bob
              "s" "u2") as (_ & H & _).
  - repeat split; simpl; lia.
  - unfold fits_columns. simpl. lia.
  - apply H.
    + unfold taken. simpl. intuition discriminate.
    + reflexivity.
Defined.
